(** * Flow captcha service client: a shallow embedding of
      [src/services/flow_captcha_service.py] and the properties of
      [FlowCaptchaService.solve] and [FlowCaptchaService.get_token].

    Python values are embedded as the inductive type [Any]; the [async]
    methods run in an exception monad over a state that records every
    request handed to the HTTP session.  A Python [str] is a [string] whose
    characters are code points below 256. *)

From Stdlib Require Import String Ascii ZArith List Bool Lia.
From Stdlib Require Import PrimFloat SpecFloat FloatOps.
From Stdlib Require Import DecimalString DecimalPos.
From ExtLib Require Import Structures.Monad Structures.MonadState Structures.MonadExc.
From ExtLib Require Import Data.Monads.StateMonad Data.Monads.EitherMonad.
Import ListNotations.
Import MonadNotation.
Local Open Scope string_scope.
Local Open Scope monad_scope.

Set Warnings "-inexact-float,-register-all".

(** ** Python strings *)

Module PyStr.

Definition code (c : ascii) : N := N_of_ascii c.

(** [str.isspace] on one character (code points below 256). *)
Definition isspace (c : ascii) : bool :=
  let n := code c in
  ((9 <=? n) && (n <=? 13) || (28 <=? n) && (n <=? 32)
   || (n =? 133) || (n =? 160))%N.

(** [s.lstrip(...)] and [s.rstrip(...)], the stripped set given as a test. *)
Fixpoint lstrip_by (p : ascii -> bool) (s : string) : string :=
  match s with
  | String c r => if p c then lstrip_by p r else s
  | EmptyString => EmptyString
  end.

Fixpoint rstrip_by (p : ascii -> bool) (s : string) : string :=
  match s with
  | String c r =>
      match rstrip_by p r with
      | EmptyString => if p c then EmptyString else String c EmptyString
      | r' => String c r'
      end
  | EmptyString => EmptyString
  end.

(** [s.strip()] *)
Definition strip (s : string) : string := rstrip_by isspace (lstrip_by isspace s).

Definition is_slash (c : ascii) : bool := Ascii.eqb c "/".

(** [s.rstrip("/")] and [s.lstrip("/")] *)
Definition rstrip_slash (s : string) : string := rstrip_by is_slash s.
Definition lstrip_slash (s : string) : string := lstrip_by is_slash s.

(** Truth value of a [str]: non-empty. *)
Definition truthy (s : string) : bool :=
  match s with EmptyString => false | String _ _ => true end.

(** [s[:n]] for [n >= 0]. *)
Fixpoint take (n : nat) (s : string) : string :=
  match n, s with
  | S n', String c r => String c (take n' r)
  | _, _ => EmptyString
  end.

Fixpoint contains (c : ascii) (s : string) : bool :=
  match s with
  | String d r => Ascii.eqb c d || contains c r
  | EmptyString => false
  end.

(** [str(n)] for an [int]. *)
Definition of_int (z : Z) : string := NilZero.string_of_int (Z.to_int z).

Definition hex_digit (n : N) : ascii :=
  if (n <? 10)%N then ascii_of_N (48 + n) else ascii_of_N (87 + n).

(** [str.isprintable] on one character (code points below 256). *)
Definition isprintable (c : ascii) : bool :=
  let n := code c in
  ((32 <=? n) && (n <=? 126) || (161 <=? n) && negb (n =? 173))%N.

(** One character of [repr(s)], [q] being the enclosing quote. *)
Definition repr_char (q c : ascii) : string :=
  if Ascii.eqb c q || Ascii.eqb c "\" then String "\" (String c EmptyString)
  else if (code c =? 9)%N then "\t"
  else if (code c =? 10)%N then "\n"
  else if (code c =? 13)%N then "\r"
  else if isprintable c then String c EmptyString
  else String "\" (String "x" (String (hex_digit (code c / 16))
                                (String (hex_digit (code c mod 16)) EmptyString))).

Fixpoint repr_chars (q : ascii) (s : string) : string :=
  match s with
  | String c r => repr_char q c ++ repr_chars q r
  | EmptyString => EmptyString
  end.

Definition squote : ascii := "'"%char.
Definition dquote : ascii := ascii_of_N 34.

(** [repr(s)] for a [str]: single quotes, unless the text has a single
    quote and no double quote. *)
Definition repr (s : string) : string :=
  let q := if contains squote s && negb (contains dquote s) then dquote else squote in
  String q (repr_chars q s ++ String q EmptyString).

Definition is_digit (c : ascii) : bool := ((48 <=? code c) && (code c <=? 57))%N.

(** Decimal digits with single underscores between them, as [int(s)] reads. *)
Fixpoint digits (s : string) (acc : Z) (after_digit : bool) : option Z :=
  match s with
  | EmptyString => if after_digit then Some acc else None
  | String c r =>
      if is_digit c then digits r (10 * acc + Z.of_N (code c - 48)) true
      else if Ascii.eqb c "_" && after_digit then
        match r with
        | EmptyString => None
        | _ => digits r acc false
        end
      else None
  end.

(** [int(s)] for a [str], base 10; [None] where Python raises [ValueError]. *)
Definition to_int (s : string) : option Z :=
  match strip s with
  | String "-" r => option_map Z.opp (digits r 0 false)
  | String "+" r => digits r 0 false
  | t => digits t 0 false
  end.

End PyStr.

(** ** Python values and exceptions *)

(** The values a decoded JSON body, a request payload or a result holds. *)
Inductive Any : Type :=
| PNone
| PBool (b : bool)
| PInt (n : Z)
| PFloat (x : float)
| PStr (s : string)
| PList (items : list Any)
| PDict (items : list (string * Any)).

(** A [Dict[str, Any]]: its items in insertion order, first binding of a key. *)
Definition Dict : Type := list (string * Any).

(** Exceptions, each with the text [str(e)] gives. [OtherException] stands
    for what a collaborator (the HTTP session, the JSON decoder) raises. *)
Inductive exn : Type :=
| ValueError (msg : string)
| RuntimeError (msg : string)
| AttributeError (msg : string)
| TypeError (msg : string)
| OverflowError (msg : string)
| OtherException (cls msg : string).

Module Py.

Definition exn_str (e : exn) : string :=
  match e with
  | ValueError m | RuntimeError m | AttributeError m | TypeError m
  | OverflowError m | OtherException _ m => m
  end.

(** [bool(v)] *)
Definition truthy (v : Any) : bool :=
  match v with
  | PNone => false
  | PBool b => b
  | PInt n => negb (n =? 0)%Z
  | PFloat x => negb (PrimFloat.eqb x 0%float)
  | PStr s => PyStr.truthy s
  | PList l => match l with [] => false | _ :: _ => true end
  | PDict d => match d with [] => false | _ :: _ => true end
  end.

(** [a or b], both already evaluated. *)
Definition or_ (a b : Any) : Any := if truthy a then a else b.

(** [type(v).__name__] *)
Definition type_name (v : Any) : string :=
  match v with
  | PNone => "NoneType"
  | PBool _ => "bool"
  | PInt _ => "int"
  | PFloat _ => "float"
  | PStr _ => "str"
  | PList _ => "list"
  | PDict _ => "dict"
  end.

(** [isinstance(v, dict)] and [isinstance(v, str)] *)
Definition is_dict (v : Any) : bool := match v with PDict _ => true | _ => false end.
Definition is_str (v : Any) : bool := match v with PStr _ => true | _ => false end.

(** Lookup of key [k] in a dict. *)
Fixpoint lookup (d : Dict) (k : string) : option Any :=
  match d with
  | [] => None
  | (k', v) :: r => if String.eqb k k' then Some v else lookup r k
  end.

(** [d.get(k, default)] and [d.get(k)] on a dict [d] *)
Definition dict_get (d : Dict) (k : string) (default : Any) : Any :=
  match lookup d k with Some v => v | None => default end.
Definition dict_get1 (d : Dict) (k : string) : Any := dict_get d k PNone.

(** [d[k] = v]: the key keeps its place when it is already there. *)
Fixpoint setitem (d : Dict) (k : string) (v : Any) : Dict :=
  match d with
  | [] => [(k, v)]
  | (k', v') :: r => if String.eqb k k' then (k, v) :: r else (k', v') :: setitem r k v
  end.

(** [v.get(k, default)] on any value: only a dict has the attribute. *)
Definition get (v : Any) (k : string) (default : Any) : exn + Any :=
  match v with
  | PDict d => inr (dict_get d k default)
  | _ => inl (AttributeError ("'" ++ type_name v ++ "' object has no attribute 'get'"))
  end.
Definition get1 (v : Any) (k : string) : exn + Any := get v k PNone.

(** [d[k]] on any value the code subscripts with a [str] key. *)
Definition getitem (v : Any) (k : string) : exn + Any :=
  match v with
  | PDict d =>
      match lookup d k with
      | Some x => inr x
      | None => inl (OtherException "KeyError" (PyStr.repr k))
      end
  | _ => inl (TypeError ("'" ++ type_name v ++ "' object is not subscriptable"))
  end.

(** Truncation of a float toward zero; [inl] where [int(x)] raises. *)
Definition float_to_int (x : float) : exn + Z :=
  match Prim2SF x with
  | S754_zero _ => inr 0%Z
  | S754_infinity _ => inl (OverflowError "cannot convert float infinity to integer")
  | S754_nan => inl (ValueError "cannot convert float NaN to integer")
  | S754_finite sgn m e =>
      let mag := if (0 <=? e)%Z then Z.shiftl (Zpos m) e else Z.shiftr (Zpos m) (- e) in
      inr (if sgn then (- mag)%Z else mag)
  end.

(** [int(v)] *)
Definition int (v : Any) : exn + Z :=
  match v with
  | PBool b => inr (if b then 1 else 0)%Z
  | PInt n => inr n
  | PFloat x => float_to_int x
  | PStr s =>
      match PyStr.to_int s with
      | Some n => inr n
      | None => inl (ValueError ("invalid literal for int() with base 10: " ++ PyStr.repr s))
      end
  | _ => inl (TypeError ("int() argument must be a string, a bytes-like object or a real number, not '"
                         ++ type_name v ++ "'"))
  end.

Section Repr.
(** [repr] of a float, left to the host. *)
Variable float_repr : float -> string.

(** [repr(v)] *)
Fixpoint repr (v : Any) : string :=
  match v with
  | PNone => "None"
  | PBool true => "True"
  | PBool false => "False"
  | PInt n => PyStr.of_int n
  | PFloat x => float_repr x
  | PStr s => PyStr.repr s
  | PList l =>
      "[" ++ (fix elems (l : list Any) : string :=
                match l with
                | [] => ""
                | x :: r => match r with
                            | [] => repr x
                            | _ :: _ => repr x ++ ", " ++ elems r
                            end
                end) l ++ "]"
  | PDict d =>
      "{" ++ (fix elems (d : list (string * Any)) : string :=
                match d with
                | [] => ""
                | (k, x) :: r => match r with
                                 | [] => PyStr.repr k ++ ": " ++ repr x
                                 | _ :: _ => PyStr.repr k ++ ": " ++ repr x ++ ", " ++ elems r
                                 end
                end) d ++ "}"
  end.

(** [str(v)] *)
Definition str (v : Any) : string :=
  match v with
  | PStr s => s
  | _ => repr v
  end.
End Repr.

End Py.

(** ** Collaborators: configuration and the HTTP session *)

(** [config], the settings object of [core.config] as [solve] reads it. *)
Record Config : Type := {
  flow_captcha_service_base_url : option string;
  flow_captcha_service_solve_path : option string;
  flow_captcha_service_api_key : option string;
  flow_captcha_service_timeout_seconds : Any
}.

Module Request.
(** The arguments of one [session.post(...)]. *)
Record t : Type := {
  url : string;
  json : Dict;
  headers : list (string * string);
  timeout : Any;
  impersonate : string
}.
End Request.

Module Response.
(** What [solve] reads of a response; [json] is the outcome of
    [response.json()], [inl] when decoding raises. *)
Record t : Type := {
  status_code : Z;
  text : option string;
  json : exn + Any
}.
End Response.

(** The effects of the service: exceptions over a log of the requests the
    session was asked to send, oldest first. *)
Definition io : Type -> Type := eitherT exn (state (list Request.t)).

Definition run {A : Type} (c : io A) (log : list Request.t) : (exn + A) * list Request.t :=
  runState (unEitherT c) log.

(** A pure outcome (value or raised exception) as an action. *)
Definition liftE {A : Type} (r : exn + A) : io A :=
  match r with
  | inl e => raise e
  | inr a => ret a
  end.

(** [x or ""] for an optional [str]. *)
Definition or_empty (x : option string) : string :=
  match x with
  | Some s => if PyStr.truthy s then s else ""
  | None => ""
  end.

(** Truth value of an optional [str]: neither [None] nor empty. *)
Definition opt_truthy (x : option string) : bool :=
  match x with
  | Some s => PyStr.truthy s
  | None => false
  end.

(** ** class FlowCaptchaService *)

Definition SERVICE_NAME : string := "Flow-RecaptchaV3TaskProxylessM1".
Definition TASK_TYPE : string := "RecaptchaV3TaskProxylessM1".
Definition PROVIDER : string := "browser".
Definition PRICING : Dict :=
  [ ("currency", PStr "CNY");
    ("price_per_1000_tasks", PFloat 15.0);
    ("price_per_task", PFloat 0.015);
    ("points_per_task", PFloat 15.0) ].
Definition FLOW_PROJECT_URL_PREFIX : string := "https://labs.google/fx/tools/flow/project/".

(** Default of [get_token]'s [page_action]. *)
Definition DEFAULT_PAGE_ACTION : string := "IMAGE_GENERATION".

(** The literal every upstream failure message of [solve] starts with. *)
Definition ERROR_PREFIX : string := "flow captcha service error: ".

(** [_to_int(value, default)] *)
Definition _to_int (value : Any) (default : Z) : Z :=
  match (match value with
         | PNone => inr default
         | _ => Py.int value
         end) with
  | inr n => n
  | inl _ => default
  end.

(** ** Sample collaborators, for the concrete runs below *)

Module Sample.

(** Stands in for [repr] of a float: the sample bodies hold none, so it
    is never called in the runs below. *)
Definition show_float (x : float) : string := "<float>".

(** [urljoin] on a base ending in a slash and a plain relative path. *)
Definition join (base path : string) : string := base ++ path.

Definition settings : Config :=
  {| flow_captcha_service_base_url := Some " https://captcha.example/ ";
     flow_captcha_service_solve_path := Some "/api/v1/solve";
     flow_captcha_service_api_key := Some "secret";
     flow_captcha_service_timeout_seconds := PInt 30 |}.

(** Settings with the base URL and the API key missing or blank. *)
Definition blank_settings : Config :=
  {| flow_captcha_service_base_url := Some "   ";
     flow_captcha_service_solve_path := Some "/api/v1/solve";
     flow_captcha_service_api_key := None;
     flow_captcha_service_timeout_seconds := PInt 30 |}.

(** Settings with only the API key missing. *)
Definition keyless_settings : Config :=
  {| flow_captcha_service_base_url := Some "https://captcha.example";
     flow_captcha_service_solve_path := Some "api/v1/solve";
     flow_captcha_service_api_key := Some "";
     flow_captcha_service_timeout_seconds := PInt 30 |}.

(** An upstream that answers every request alike. *)
Definition respond (status : Z) (text : string) (json : exn + Any)
  : Request.t -> exn + Response.t :=
  fun _ => inr {| Response.status_code := status;
                  Response.text := Some text;
                  Response.json := json |}.

(** An upstream that cannot be reached. *)
Definition unreachable : Request.t -> exn + Response.t :=
  fun _ => inl (OtherException "ConnectionError" "connection refused").

Definition not_json : exn + Any :=
  inl (OtherException "JSONDecodeError" "Expecting value: line 1 column 1 (char 0)").

(** Sample bodies, decoded, and a raw text that is no JSON. *)
Definition rate_limited : Any := PDict [("error", PStr "rate_limited")].
Definition overload : Any := PDict [("error", PDict [("message", PStr "overload")])].
Definition quota : Any := PDict [("error", PDict [("message", PStr "quota")])].
Definition token_T1 : Any := PDict [("token", PStr "T1")].
Definition token_T2 : Any := PDict [("gRecaptchaResponse", PStr "T2")].
Definition empty_object : Any := PDict [].
Definition pending : Any := PDict [("solution", PStr "pending")].
Definition raw : string := "(raw body)".
Definition garbage : string := "oops, not json".

(** The request every sample call with project [abc123] sends. *)
Definition request : Request.t :=
  {| Request.url := "https://captcha.example/api/v1/solve";
     Request.json := [ ("page_action", PStr "IMAGE_GENERATION");
                       ("project_id", PStr "abc123");
                       ("website_url",
                        PStr "https://labs.google/fx/tools/flow/project/abc123") ];
     Request.headers := [("Authorization", "Bearer secret")];
     Request.timeout := PInt 30;
     Request.impersonate := "chrome110" |}.

End Sample.

(** ** Predicates for the statements about strings and settings *)

(** Every character of [s] passes [p]. *)
Fixpoint all_by (p : ascii -> bool) (s : string) : bool :=
  match s with
  | EmptyString => true
  | String c r => p c && all_by p r
  end.

(** [s] is non-empty and its first character passes [p]. *)
Definition starts_by (p : ascii -> bool) (s : string) : bool :=
  match s with
  | EmptyString => false
  | String c _ => p c
  end.

(** [s] is non-empty and its last character passes [p]. *)
Fixpoint ends_by (p : ascii -> bool) (s : string) : bool :=
  match s with
  | EmptyString => false
  | String c r =>
      match r with
      | EmptyString => p c
      | String _ _ => ends_by p r
      end
  end.

(** A setting that is [None], empty or whitespace only. *)
Definition blank (x : option string) : bool :=
  match x with
  | None => true
  | Some s => all_by PyStr.isspace s
  end.


Section FlowCaptchaService.

(** Host functions: [repr] of a float and [urllib.parse.urljoin]. *)
Variable float_repr : float -> string.
Variable urljoin : string -> string -> string.

(** The process configuration, and the upstream as the session meets it:
    a response, or the exception [session.post] raises. *)
Variable config : Config.
Variable upstream : Request.t -> exn + Response.t.

Definition str : Any -> string := Py.str float_repr.

(** [await session.post(...)] inside [async with AsyncSession()]. *)
Definition session_post (req : Request.t) : io Response.t :=
  modify (fun log => (log ++ [req])%list) ;;
  liftE (upstream req).

(** [_extract_error_message(response_json)] *)
Definition _extract_error_message (response_json : Any) : exn + string :=
  err <- Py.get1 response_json "error" ;;
  match err with
  | PDict e =>
      ret (str (Py.or_ (Py.or_ (Py.dict_get1 e "message") (Py.dict_get1 e "error"))
                       response_json))
  | PStr s => ret s
  | _ =>
      m <- Py.get1 response_json "message" ;;
      if Py.is_str m then
        m' <- Py.getitem response_json "message" ;;
        ret (str m')
      else ret (str response_json)
  end.

(** Lines 51-53: the website URL sent upstream. *)
Definition resolved_website_url (project_id website_url : option string) : string :=
  let resolved := PyStr.strip (or_empty website_url) in
  match project_id with
  | Some p =>
      if negb (PyStr.truthy resolved) && PyStr.truthy p
      then FLOW_PROJECT_URL_PREFIX ++ p
      else resolved
  | None => resolved
  end.

(** Lines 55-61: the JSON payload. *)
Definition payload (project_id website_url : option string) (page_action : string) : Dict :=
  let p0 : Dict := [("page_action", PStr page_action)] in
  let p1 := match project_id with
            | Some p => if PyStr.truthy p then Py.setitem p0 "project_id" (PStr p) else p0
            | None => p0
            end in
  let r := resolved_website_url project_id website_url in
  if PyStr.truthy r then Py.setitem p1 "website_url" (PStr r) else p1.

(** Line 63: the target URL, from the trimmed settings. *)
Definition request_url (base_url solve_path : string) : string :=
  urljoin (PyStr.rstrip_slash base_url ++ "/") (PyStr.lstrip_slash solve_path).

(** Lines 96-101: the [or] chain over the token fields; a later operand
    is evaluated only when the earlier ones are falsy. *)
Definition token_of (response_json : Any) : exn + Any :=
  t1 <- Py.get1 response_json "token" ;;
  if Py.truthy t1 then ret t1 else
  t2 <- Py.get1 response_json "gRecaptchaResponse" ;;
  if Py.truthy t2 then ret t2 else
  t3 <- Py.get1 response_json "g_recaptcha_response" ;;
  if Py.truthy t3 then ret t3 else
  solution <- Py.get response_json "solution" (PDict []) ;;
  Py.get1 solution "gRecaptchaResponse".

(** [solve(project_id=..., website_url=..., page_action=...)] *)
Definition solve (project_id website_url : option string) (page_action : string) : io Dict :=
  let base_url := PyStr.strip (or_empty (flow_captcha_service_base_url config)) in
  let solve_path := PyStr.strip (or_empty (flow_captcha_service_solve_path config)) in
  let api_key := PyStr.strip (or_empty (flow_captcha_service_api_key config)) in
  let timeout_seconds := flow_captcha_service_timeout_seconds config in
  if negb (PyStr.truthy base_url) then
    raise (ValueError "FlowCaptchaServiceBaseURL is not configured")
  else if negb (PyStr.truthy solve_path) then
    raise (ValueError "FlowCaptchaServiceSolvePath is not configured")
  else if negb (PyStr.truthy api_key) then
    raise (ValueError "FlowCaptchaServiceApiKey is not configured")
  else
    response <-
      catch (session_post
               {| Request.url := request_url base_url solve_path;
                  Request.json := payload project_id website_url page_action;
                  Request.headers := [("Authorization", "Bearer " ++ api_key)];
                  Request.timeout := timeout_seconds;
                  Request.impersonate := "chrome110" |})
            (fun e => raise (RuntimeError
               ("flow captcha service error: request failed: " ++ Py.exn_str e))) ;;
    response_json <-
      catch (liftE (Response.json response))
            (fun _ =>
               let text_preview := PyStr.take 200 (or_empty (Response.text response)) in
               raise (RuntimeError
                 ("flow captcha service error: invalid json response (status="
                  ++ PyStr.of_int (Response.status_code response) ++ "): " ++ text_preview))) ;;
    if (400 <=? Response.status_code response)%Z then
      upstream_message <- liftE (_extract_error_message response_json) ;;
      raise (RuntimeError
        ("flow captcha service error: upstream status "
         ++ PyStr.of_int (Response.status_code response) ++ ": " ++ upstream_message))
    else
      err <- liftE (Py.get1 response_json "error") ;;
      if Py.is_dict err then
        upstream_message <- liftE (_extract_error_message response_json) ;;
        raise (RuntimeError ("flow captcha service error: " ++ upstream_message))
      else
        token <- liftE (token_of response_json) ;;
        if negb (Py.truthy token) then
          raise (RuntimeError "flow captcha service error: missing token in upstream response")
        else
          duration_ms <- liftE (Py.get1 response_json "duration_ms") ;;
          browser_id <- liftE (Py.get1 response_json "browser_id") ;;
          ret [ ("name", PStr SERVICE_NAME);
                ("object", PStr "captcha.solution");
                ("provider", PStr PROVIDER);
                ("page_action", PStr page_action);
                ("token", token);
                ("duration_ms", PInt (_to_int duration_ms 0));
                ("browser_id", PInt (_to_int browser_id 0));
                ("task_type", PStr TASK_TYPE);
                ("pricing", PDict PRICING) ].

(** [get_token(project_id=..., page_action=...)]; the result is a Python
    value, [PNone] for [None]. *)
Definition get_token (project_id : option string) (page_action : string) : io Any :=
  if negb (opt_truthy project_id) then ret PNone
  else
    result <- solve project_id None page_action ;;
    ret (Py.dict_get1 result "token").

(** *** The settings after trimming, and the request a call sends *)

Definition cfg_base_url : string :=
  PyStr.strip (or_empty (flow_captcha_service_base_url config)).
Definition cfg_solve_path : string :=
  PyStr.strip (or_empty (flow_captcha_service_solve_path config)).
Definition cfg_api_key : string :=
  PyStr.strip (or_empty (flow_captcha_service_api_key config)).

(** All three required settings are non-empty after trimming. *)
Definition configured : Prop :=
  cfg_base_url <> "" /\ cfg_solve_path <> "" /\ cfg_api_key <> "".

Definition sent_request (project_id website_url : option string) (page_action : string)
  : Request.t :=
  {| Request.url := request_url cfg_base_url cfg_solve_path;
     Request.json := payload project_id website_url page_action;
     Request.headers := [("Authorization", "Bearer " ++ cfg_api_key)];
     Request.timeout := flow_captcha_service_timeout_seconds config;
     Request.impersonate := "chrome110" |}.

(** *** The two extraction chains on a JSON object *)

(** The message-extraction policy in the words of the specification:
    a mapping [error] gives its [message], else its [error], else the
    whole body; a string [error] gives itself; else a string [message];
    else the whole body. A sub-field counts when it is truthy, and what
    is picked is passed through [str]. *)
Definition error_message_policy (d : Dict) : string :=
  match Py.lookup d "error" with
  | Some (PDict e) =>
      match find Py.truthy [Py.dict_get1 e "message"; Py.dict_get1 e "error"] with
      | Some v => str v
      | None => str (PDict d)
      end
  | Some (PStr s) => s
  | _ =>
      match Py.lookup d "message" with
      | Some (PStr m) => m
      | _ => str (PDict d)
      end
  end.

(** The first truthy value among the three top-level token fields. *)
Definition top_level_token (d : Dict) : option Any :=
  find Py.truthy [Py.dict_get1 d "token"; Py.dict_get1 d "gRecaptchaResponse";
                  Py.dict_get1 d "g_recaptcha_response"].

(** The token fields in the order of the specification, the fourth
    being the [gRecaptchaResponse] sub-field of a [solution] mapping. *)
Definition token_fields (d : Dict) : list Any :=
  [ Py.dict_get1 d "token";
    Py.dict_get1 d "gRecaptchaResponse";
    Py.dict_get1 d "g_recaptcha_response";
    match Py.lookup d "solution" with
    | Some (PDict s) => Py.dict_get1 s "gRecaptchaResponse"
    | _ => PNone
    end ].

(** [solution] is absent or a mapping, or is never read because a
    top-level field already holds a token. *)
Definition solution_guarded (d : Dict) : bool :=
  match Py.lookup d "solution" with
  | None | Some (PDict _) => true
  | Some _ => match top_level_token d with Some _ => true | None => false end
  end.

(** The mapping a successful call returns. *)
Definition solve_result (page_action : string) (token : Any) (d : Dict) : Dict :=
  [ ("name", PStr "Flow-RecaptchaV3TaskProxylessM1");
    ("object", PStr "captcha.solution");
    ("provider", PStr "browser");
    ("page_action", PStr page_action);
    ("token", token);
    ("duration_ms", PInt (_to_int (Py.dict_get1 d "duration_ms") 0));
    ("browser_id", PInt (_to_int (Py.dict_get1 d "browser_id") 0));
    ("task_type", PStr "RecaptchaV3TaskProxylessM1");
    ("pricing", PDict [ ("currency", PStr "CNY");
                        ("price_per_1000_tasks", PFloat 15.0);
                        ("price_per_task", PFloat 0.015);
                        ("points_per_task", PFloat 15.0) ]) ].

(** The message of the [AttributeError] an unguarded [.get] raises. *)
Definition no_get (v : Any) : string :=
  "'" ++ Py.type_name v ++ "' object has no attribute 'get'".

(** *** The ways a configured call can end *)

(** How a call of [solve] ended, by the step that ended it. *)
Inductive outcome (pa : string) : exn + Dict -> Prop :=
| transport_failure (t : string) :
    outcome pa (inl (RuntimeError (ERROR_PREFIX ++ "request failed: " ++ t)))
| invalid_json (status : Z) (preview : string) :
    outcome pa (inl (RuntimeError (ERROR_PREFIX ++ "invalid json response (status="
                                   ++ PyStr.of_int status ++ "): " ++ preview)))
| status_error (status : Z) (d : Dict) :
    (400 <= status)%Z ->
    outcome pa (inl (RuntimeError (ERROR_PREFIX ++ "upstream status "
                                   ++ PyStr.of_int status ++ ": "
                                   ++ error_message_policy d)))
| logical_error (d : Dict) :
    Py.is_dict (Py.dict_get1 d "error") = true ->
    outcome pa (inl (RuntimeError (ERROR_PREFIX ++ error_message_policy d)))
| missing_token :
    outcome pa (inl (RuntimeError (ERROR_PREFIX ++ "missing token in upstream response")))
| unguarded_get (v : Any) :
    Py.is_dict v = false ->
    outcome pa (inl (AttributeError (no_get v)))
| solved (token : Any) (d : Dict) :
    Py.truthy token = true ->
    outcome pa (inr (solve_result pa token d)).

(** ** Lemmas *)

(** *** Running an action: one equation per operation *)

Lemma run_ret {A : Type} (a : A) (log : list Request.t) :
  run (ret a) log = (inr a, log).
Proof. reflexivity. Qed.

Lemma run_raise {A : Type} (e : exn) (log : list Request.t) :
  run (raise e : io A) log = (inl e, log).
Proof. reflexivity. Qed.

Lemma run_liftE {A : Type} (r : exn + A) (log : list Request.t) :
  run (liftE r) log = (r, log).
Proof. destruct r; reflexivity. Qed.

Lemma run_bind {A B : Type} (c : io A) (f : A -> io B) (log : list Request.t) :
  run (bind c f) log =
  match run c log with
  | (inl e, log') => (inl e, log')
  | (inr a, log') => run (f a) log'
  end.
Proof.
  unfold run. cbn.
  destruct (runState (unEitherT c) log) as [[e | a] log']; reflexivity.
Qed.

Lemma run_catch {A : Type} (c : io A) (h : exn -> io A) (log : list Request.t) :
  run (catch c h) log =
  match run c log with
  | (inl e, log') => run (h e) log'
  | (inr a, log') => (inr a, log')
  end.
Proof.
  unfold run. cbn.
  destruct (runState (unEitherT c) log) as [[e | a] log']; reflexivity.
Qed.

Lemma run_modify (f : list Request.t -> list Request.t) (log : list Request.t) :
  run (modify f) log = (inr log, f log).
Proof. reflexivity. Qed.

Create Rewrite HintDb run.
#[local] Hint Rewrite @run_ret @run_raise @run_liftE @run_bind @run_catch run_modify : run.

Lemma run_session_post (req : Request.t) (log : list Request.t) :
  run (session_post req) log = (upstream req, (log ++ [req])%list).
Proof.
  unfold session_post. autorewrite with run. reflexivity.
Qed.

Lemma truthy_nonempty (s : string) : PyStr.truthy s = true <-> s <> "".
Proof. destruct s; cbn; split; congruence. Qed.

(** Enters [solve] past the three configuration checks and the [post]. *)
Ltac enter_solve Hcfg :=
  let Hb := fresh "Hb" in
  let Hp := fresh "Hp" in
  let Hk := fresh "Hk" in
  destruct Hcfg as (Hb & Hp & Hk);
  apply truthy_nonempty in Hb, Hp, Hk;
  unfold sent_request in *;
  unfold cfg_base_url, cfg_solve_path, cfg_api_key in *;
  unfold solve; cbv zeta;
  rewrite Hb, Hp, Hk; cbn [negb];
  autorewrite with run; rewrite run_session_post.

Ltac step H := rewrite H; cbv beta iota; autorewrite with run.

Lemma solve_transport_failure pid wurl pa log e :
  configured ->
  upstream (sent_request pid wurl pa) = inl e ->
  run (solve pid wurl pa) log =
  (inl (RuntimeError (ERROR_PREFIX ++ "request failed: " ++ Py.exn_str e)),
   (log ++ [sent_request pid wurl pa])%list).
Proof.
  intros Hcfg Hup. enter_solve Hcfg. step Hup. reflexivity.
Qed.

Lemma solve_invalid_json pid wurl pa log resp e :
  configured ->
  upstream (sent_request pid wurl pa) = inr resp ->
  Response.json resp = inl e ->
  run (solve pid wurl pa) log =
  (inl (RuntimeError (ERROR_PREFIX ++ "invalid json response (status="
                      ++ PyStr.of_int (Response.status_code resp) ++ "): "
                      ++ PyStr.take 200 (or_empty (Response.text resp)))),
   (log ++ [sent_request pid wurl pa])%list).
Proof.
  intros Hcfg Hup Hjson. enter_solve Hcfg. step Hup. step Hjson. reflexivity.
Qed.

Lemma extract_error_message_policy (d : Dict) :
  _extract_error_message (PDict d) = inr (error_message_policy d).
Proof.
  unfold _extract_error_message, error_message_policy.
  unfold Py.get1, Py.get, Py.getitem, Py.or_, Py.dict_get1, Py.dict_get.
  cbn [bind ret Monad_either find].
  destruct (Py.lookup d "error") as [[ | b | n | x | s | l | e] | ];
    try (destruct (Py.lookup d "message") as [[ | b' | n' | x' | s' | l' | e'] | ];
         reflexivity).
  destruct (Py.truthy (match Py.lookup e "message" with Some v => v | None => PNone end))
    eqn:Hm; [now rewrite Hm | ].
  destruct (Py.truthy (match Py.lookup e "error" with Some v => v | None => PNone end))
    eqn:He; now rewrite ?He.
Qed.

Lemma token_of_top_level (d : Dict) (t : Any) :
  top_level_token d = Some t -> token_of (PDict d) = inr t.
Proof.
  unfold top_level_token, token_of, Py.get1, Py.get, Py.dict_get1.
  cbn [bind ret Monad_either find].
  destruct (Py.truthy (Py.dict_get d "token" PNone)); [congruence | ].
  destruct (Py.truthy (Py.dict_get d "gRecaptchaResponse" PNone)); [congruence | ].
  destruct (Py.truthy (Py.dict_get d "g_recaptcha_response" PNone)); congruence.
Qed.

Lemma token_of_solution (d : Dict) :
  top_level_token d = None ->
  token_of (PDict d) = Py.get1 (Py.dict_get d "solution" (PDict [])) "gRecaptchaResponse".
Proof.
  unfold top_level_token, token_of, Py.get1, Py.get, Py.dict_get1.
  cbn [bind ret Monad_either find].
  destruct (Py.truthy (Py.dict_get d "token" PNone)); [congruence | ].
  destruct (Py.truthy (Py.dict_get d "gRecaptchaResponse" PNone)); [congruence | ].
  destruct (Py.truthy (Py.dict_get d "g_recaptcha_response" PNone)); [congruence | ].
  reflexivity.
Qed.

Lemma token_of_guarded (d : Dict) :
  solution_guarded d = true ->
  exists t, token_of (PDict d) = inr t
            /\ find Py.truthy (token_fields d) = if Py.truthy t then Some t else None.
Proof.
  intros Hg.
  destruct (top_level_token d) as [t | ] eqn:Htop.
  - exists t. split; [exact (token_of_top_level _ _ Htop) | ].
    revert Htop. unfold top_level_token, token_fields. cbn [find].
    destruct (Py.truthy (Py.dict_get1 d "token")) eqn:H1;
      [intros [= <-]; now rewrite H1 | ].
    destruct (Py.truthy (Py.dict_get1 d "gRecaptchaResponse")) eqn:H2;
      [intros [= <-]; now rewrite H2 | ].
    destruct (Py.truthy (Py.dict_get1 d "g_recaptcha_response")) eqn:H3;
      [intros [= <-]; now rewrite H3 | discriminate].
  - rewrite (token_of_solution _ Htop).
    revert Htop Hg. unfold solution_guarded, top_level_token, token_fields, Py.dict_get.
    cbn [find].
    destruct (Py.truthy (Py.dict_get1 d "token")); [discriminate | ].
    destruct (Py.truthy (Py.dict_get1 d "gRecaptchaResponse")); [discriminate | ].
    destruct (Py.truthy (Py.dict_get1 d "g_recaptcha_response")); [discriminate | ].
    intros _.
    destruct (Py.lookup d "solution") as [[ | b | n | x | s | l | sol] | ];
      try discriminate; intros _; cbn [Py.get1 Py.get].
    + exists (Py.dict_get sol "gRecaptchaResponse" PNone). split; [reflexivity | ].
      unfold Py.dict_get1.
      destruct (Py.truthy (Py.dict_get sol "gRecaptchaResponse" PNone)); reflexivity.
    + exists PNone. split; reflexivity.
Qed.

(** *** One lemma per path through [solve] after the request *)

Lemma solve_status_error pid wurl pa log resp d :
  configured ->
  upstream (sent_request pid wurl pa) = inr resp ->
  Response.json resp = inr (PDict d) ->
  (400 <= Response.status_code resp)%Z ->
  run (solve pid wurl pa) log =
  (inl (RuntimeError (ERROR_PREFIX ++ "upstream status "
                      ++ PyStr.of_int (Response.status_code resp) ++ ": "
                      ++ error_message_policy d)),
   (log ++ [sent_request pid wurl pa])%list).
Proof.
  intros Hcfg Hup Hjson Hst. enter_solve Hcfg. step Hup. step Hjson.
  apply Z.leb_le in Hst. step Hst.
  step extract_error_message_policy. reflexivity.
Qed.

Lemma solve_logical_error pid wurl pa log resp d :
  configured ->
  upstream (sent_request pid wurl pa) = inr resp ->
  Response.json resp = inr (PDict d) ->
  (Response.status_code resp < 400)%Z ->
  Py.is_dict (Py.dict_get1 d "error") = true ->
  run (solve pid wurl pa) log =
  (inl (RuntimeError (ERROR_PREFIX ++ error_message_policy d)),
   (log ++ [sent_request pid wurl pa])%list).
Proof.
  intros Hcfg Hup Hjson Hst Herr. enter_solve Hcfg. step Hup. step Hjson.
  apply Z.leb_gt in Hst. step Hst.
  cbn [Py.get1 Py.get]. autorewrite with run. cbv beta iota.
  unfold Py.dict_get1 in Herr. step Herr.
  step extract_error_message_policy. reflexivity.
Qed.

Lemma solve_after_token pid wurl pa log resp d r :
  configured ->
  upstream (sent_request pid wurl pa) = inr resp ->
  Response.json resp = inr (PDict d) ->
  (Response.status_code resp < 400)%Z ->
  Py.is_dict (Py.dict_get1 d "error") = false ->
  token_of (PDict d) = r ->
  run (solve pid wurl pa) log =
  (match r with
   | inl e => inl e
   | inr token =>
       if Py.truthy token then inr (solve_result pa token d)
       else inl (RuntimeError (ERROR_PREFIX ++ "missing token in upstream response"))
   end,
   (log ++ [sent_request pid wurl pa])%list).
Proof.
  intros Hcfg Hup Hjson Hst Herr Htok. enter_solve Hcfg. step Hup. step Hjson.
  apply Z.leb_gt in Hst. step Hst.
  cbn [Py.get1 Py.get]. autorewrite with run. cbv beta iota.
  unfold Py.dict_get1 in Herr. step Herr.
  step Htok. destruct r as [e | token]; [reflexivity | ].
  destruct (Py.truthy token); cbn [negb]; autorewrite with run; reflexivity.
Qed.

Lemma get_non_dict (v : Any) (k : string) (default : Any) :
  Py.is_dict v = false -> Py.get v k default = inl (AttributeError (no_get v)).
Proof. destruct v; cbn; intros H; try discriminate; reflexivity. Qed.

Lemma solve_non_object pid wurl pa log resp j :
  configured ->
  upstream (sent_request pid wurl pa) = inr resp ->
  Response.json resp = inr j ->
  Py.is_dict j = false ->
  run (solve pid wurl pa) log =
  (inl (AttributeError (no_get j)), (log ++ [sent_request pid wurl pa])%list).
Proof.
  intros Hcfg Hup Hjson Hj. enter_solve Hcfg. step Hup. step Hjson.
  unfold _extract_error_message, Py.get1. rewrite (get_non_dict _ _ _ Hj).
  cbn [bind Monad_either]. autorewrite with run.
  destruct (400 <=? Response.status_code resp)%Z; reflexivity.
Qed.

Lemma token_of_raises (d : Dict) (e : exn) :
  token_of (PDict d) = inl e ->
  top_level_token d = None /\
  exists v, Py.lookup d "solution" = Some v /\ Py.is_dict v = false
            /\ e = AttributeError (no_get v).
Proof.
  destruct (top_level_token d) as [t | ] eqn:Htop.
  - rewrite (token_of_top_level _ _ Htop). discriminate.
  - rewrite (token_of_solution _ Htop). unfold Py.dict_get.
    destruct (Py.lookup d "solution") as [v | ]; [ | discriminate].
    intros H. split; [reflexivity | ]. exists v. split; [reflexivity | ].
    destruct v; cbn [Py.get1 Py.get] in H; try discriminate;
      injection H as <-; split; reflexivity.
Qed.

Lemma configured_dec : configured \/ ~ configured.
Proof.
  unfold configured.
  destruct cfg_base_url; [right; intros (H & _); congruence | ].
  destruct cfg_solve_path; [right; intros (_ & H & _); congruence | ].
  destruct cfg_api_key; [right; intros (_ & _ & H); congruence | ].
  left. repeat split; discriminate.
Qed.

(** *** The configuration checks *)

Ltac enter_checks :=
  unfold solve; cbv zeta; fold cfg_base_url cfg_solve_path cfg_api_key.

Lemma solve_no_base_url pid wurl pa log :
  cfg_base_url = "" ->
  run (solve pid wurl pa) log =
  (inl (ValueError "FlowCaptchaServiceBaseURL is not configured"), log).
Proof.
  intros Hb. enter_checks. rewrite Hb. cbn [negb PyStr.truthy].
  now autorewrite with run.
Qed.

Lemma solve_no_solve_path pid wurl pa log :
  cfg_base_url <> "" -> cfg_solve_path = "" ->
  run (solve pid wurl pa) log =
  (inl (ValueError "FlowCaptchaServiceSolvePath is not configured"), log).
Proof.
  intros Hb Hp. apply truthy_nonempty in Hb. enter_checks. rewrite Hb, Hp.
  cbn [negb PyStr.truthy]. now autorewrite with run.
Qed.

Lemma solve_no_api_key pid wurl pa log :
  cfg_base_url <> "" -> cfg_solve_path <> "" -> cfg_api_key = "" ->
  run (solve pid wurl pa) log =
  (inl (ValueError "FlowCaptchaServiceApiKey is not configured"), log).
Proof.
  intros Hb Hp Hk. apply truthy_nonempty in Hb, Hp. enter_checks. rewrite Hb, Hp, Hk.
  cbn [negb PyStr.truthy]. now autorewrite with run.
Qed.

Lemma solve_configured_outcome pid wurl pa log :
  configured ->
  exists r, run (solve pid wurl pa) log = (r, (log ++ [sent_request pid wurl pa])%list)
            /\ outcome pa r.
Proof.
  intros Hcfg.
  destruct (upstream (sent_request pid wurl pa)) as [e | resp] eqn:Hup.
  { eexists; split; [exact (solve_transport_failure _ _ _ _ _ Hcfg Hup) | constructor]. }
  destruct (Response.json resp) as [e | j] eqn:Hjson.
  { eexists; split; [exact (solve_invalid_json _ _ _ _ _ _ Hcfg Hup Hjson) | constructor]. }
  destruct (Py.is_dict j) eqn:Hj.
  2:{ eexists; split; [exact (solve_non_object _ _ _ _ _ _ Hcfg Hup Hjson Hj)
                      | now constructor]. }
  destruct j as [ | | | | | | d]; try discriminate.
  destruct (Z.le_gt_cases 400 (Response.status_code resp)) as [Hst | Hst].
  { eexists; split; [exact (solve_status_error _ _ _ _ _ _ Hcfg Hup Hjson Hst)
                    | now constructor]. }
  destruct (Py.is_dict (Py.dict_get1 d "error")) eqn:Herr.
  { eexists; split; [exact (solve_logical_error _ _ _ _ _ _ Hcfg Hup Hjson Hst Herr)
                    | now constructor]. }
  eexists; split;
    [exact (solve_after_token _ _ _ _ _ _ _ Hcfg Hup Hjson Hst Herr eq_refl) | ].
  destruct (token_of (PDict d)) as [e | token] eqn:Htok.
  - apply token_of_raises in Htok. destruct Htok as (_ & v & _ & Hv & ->).
    now constructor.
  - destruct (Py.truthy token) eqn:Ht; now constructor.
Qed.

Lemma solve_unconfigured pid wurl pa log :
  ~ configured ->
  exists m, run (solve pid wurl pa) log = (inl (ValueError m), log).
Proof.
  intros Hn.
  destruct cfg_base_url as [ | a b] eqn:Hb.
  { eexists. now apply solve_no_base_url. }
  destruct cfg_solve_path as [ | a' p] eqn:Hp.
  { eexists. apply solve_no_solve_path; [rewrite Hb; discriminate | exact Hp]. }
  destruct cfg_api_key as [ | a'' k] eqn:Hk.
  { eexists. apply solve_no_api_key;
      [rewrite Hb; discriminate | rewrite Hp; discriminate | exact Hk]. }
  exfalso. apply Hn. unfold configured. rewrite Hb, Hp, Hk.
  repeat split; discriminate.
Qed.

(** ** The properties of [solve] and [get_token] *)

(** C3. The three required settings are checked after trimming, in the
    order base URL, solve path, API key; the first empty one raises
    [ValueError] (the configuration error) with the message naming it,
    and the request log is left as it was: nothing has been sent. *)
Theorem solve_configuration_errors pid wurl pa log :
  (cfg_base_url = "" ->
   run (solve pid wurl pa) log =
   (inl (ValueError "FlowCaptchaServiceBaseURL is not configured"), log))
  /\ (cfg_base_url <> "" -> cfg_solve_path = "" ->
      run (solve pid wurl pa) log =
      (inl (ValueError "FlowCaptchaServiceSolvePath is not configured"), log))
  /\ (cfg_base_url <> "" -> cfg_solve_path <> "" -> cfg_api_key = "" ->
      run (solve pid wurl pa) log =
      (inl (ValueError "FlowCaptchaServiceApiKey is not configured"), log)).
Proof.
  split; [ | split].
  - apply solve_no_base_url.
  - apply solve_no_solve_path.
  - apply solve_no_api_key.
Qed.

(** C1 (amended). On HTTP 200 with body [{"error": "rate_limited"}] the
    call fails with the upstream [RuntimeError] whose message is
    [flow captcha service error: missing token in upstream response]:
    on a status below 400 only a mapping-valued [error] is a logical
    failure, a string-valued one is passed over and token extraction
    goes on, so the same [error] next to a token gives a result. *)
Theorem solve_string_error_on_200 pid wurl pa log resp :
  configured ->
  upstream (sent_request pid wurl pa) = inr resp ->
  Response.status_code resp = 200%Z ->
  (Response.json resp = inr (PDict [("error", PStr "rate_limited")]) ->
   run (solve pid wurl pa) log =
   (inl (RuntimeError "flow captcha service error: missing token in upstream response"),
    (log ++ [sent_request pid wurl pa])%list))
  /\ (forall s t : string, t <> "" ->
      Response.json resp = inr (PDict [("error", PStr s); ("token", PStr t)]) ->
      exists r, run (solve pid wurl pa) log = (inr r, (log ++ [sent_request pid wurl pa])%list)
                /\ Py.lookup r "token" = Some (PStr t)).
Proof.
  intros Hcfg Hup Hst.
  assert (Hlt : (Response.status_code resp < 400)%Z) by lia.
  split.
  - intros Hjson.
    exact (solve_after_token _ _ _ log _ _ _ Hcfg Hup Hjson Hlt eq_refl eq_refl).
  - intros s t Ht Hjson.
    apply truthy_nonempty in Ht.
    rewrite (solve_after_token _ _ _ log _ _ _ Hcfg Hup Hjson Hlt eq_refl eq_refl).
    change (token_of (PDict [("error", PStr s); ("token", PStr t)]))
      with (if PyStr.truthy t then inr (PStr t) else @inr exn Any PNone).
    rewrite Ht. cbn [Py.truthy]. rewrite Ht.
    eexists. split; reflexivity.
Qed.

(** C2 (amended). For a response with status below 400 (every 2xx one)
    whose body is a JSON object with no mapping-valued [error] and whose
    [solution], where it is read, is a mapping: the first truthy value
    among [token], [gRecaptchaResponse], [g_recaptcha_response] and
    [solution.gRecaptchaResponse] is the token of the result; with none,
    the call fails with the [RuntimeError] whose message is
    [flow captcha service error: missing token in upstream response].
    The body [{"gRecaptchaResponse": "T2"}] gives the token [T2]. *)
Theorem solve_token_priority pid wurl pa log resp d :
  configured ->
  upstream (sent_request pid wurl pa) = inr resp ->
  Response.json resp = inr (PDict d) ->
  (Response.status_code resp < 400)%Z ->
  Py.is_dict (Py.dict_get1 d "error") = false ->
  solution_guarded d = true ->
  (forall t, find Py.truthy (token_fields d) = Some t ->
     run (solve pid wurl pa) log =
     (inr (solve_result pa t d), (log ++ [sent_request pid wurl pa])%list)
     /\ Py.lookup (solve_result pa t d) "token" = Some t)
  /\ (find Py.truthy (token_fields d) = None ->
      run (solve pid wurl pa) log =
      (inl (RuntimeError "flow captcha service error: missing token in upstream response"),
       (log ++ [sent_request pid wurl pa])%list))
  /\ (d = [("gRecaptchaResponse", PStr "T2")] ->
      find Py.truthy (token_fields d) = Some (PStr "T2")).
Proof.
  intros Hcfg Hup Hjson Hst Herr Hg.
  destruct (token_of_guarded d Hg) as (t0 & Htok & Hfind).
  pose proof (solve_after_token _ _ _ log _ _ _ Hcfg Hup Hjson Hst Herr Htok) as Hrun.
  cbv beta iota in Hrun.
  split; [ | split].
  - intros t Ht. rewrite Ht in Hfind.
    destruct (Py.truthy t0) eqn:Ht0; [ | discriminate].
    injection Hfind as ->. split; [exact Hrun | reflexivity].
  - intros Hnone. rewrite Hnone in Hfind.
    destruct (Py.truthy t0) eqn:Ht0; [discriminate | exact Hrun].
  - intros ->. reflexivity.
Qed.

(** C4 (amended). For a JSON object body: with status 400 or more the
    call fails with the [RuntimeError] whose message is
    [flow captcha service error: upstream status <code>: <message>];
    with a lower status and a mapping-valued [error] it fails with the
    message [flow captcha service error: <message>], no status code in
    it. In both, <message> is what [_extract_error_message] returns,
    which is the ordered extraction policy: for a mapping [error] the
    [str] of its first truthy sub-field among [message] and [error],
    else of the whole body; a string [error] itself; else a string
    top-level [message]; else the [str] of the whole body. *)
Theorem solve_error_message_format pid wurl pa log resp d :
  configured ->
  upstream (sent_request pid wurl pa) = inr resp ->
  Response.json resp = inr (PDict d) ->
  _extract_error_message (PDict d) = inr (error_message_policy d)
  /\ ((400 <= Response.status_code resp)%Z ->
      run (solve pid wurl pa) log =
      (inl (RuntimeError ("flow captcha service error: upstream status "
                          ++ PyStr.of_int (Response.status_code resp) ++ ": "
                          ++ error_message_policy d)),
       (log ++ [sent_request pid wurl pa])%list))
  /\ ((Response.status_code resp < 400)%Z ->
      Py.is_dict (Py.dict_get1 d "error") = true ->
      run (solve pid wurl pa) log =
      (inl (RuntimeError ("flow captcha service error: " ++ error_message_policy d)),
       (log ++ [sent_request pid wurl pa])%list)).
Proof.
  intros Hcfg Hup Hjson. split; [ | split].
  - apply extract_error_message_policy.
  - intros Hst. exact (solve_status_error _ _ _ log _ _ Hcfg Hup Hjson Hst).
  - intros Hst Herr. exact (solve_logical_error _ _ _ log _ _ Hcfg Hup Hjson Hst Herr).
Qed.

(** C5. Every result [solve] returns carries the same [name], [object],
    [provider], [task_type] and [pricing], whatever the arguments and the
    upstream data, and echoes [page_action]; on HTTP 200 with body
    [{"token": "T1"}] the result is exactly those constants with token
    [T1], [duration_ms] 0 and [browser_id] 0. *)
Theorem solve_result_fixed_fields :
  (forall pid wurl pa log r log',
     run (solve pid wurl pa) log = (inr r, log') ->
     Py.lookup r "name" = Some (PStr "Flow-RecaptchaV3TaskProxylessM1")
     /\ Py.lookup r "object" = Some (PStr "captcha.solution")
     /\ Py.lookup r "provider" = Some (PStr "browser")
     /\ Py.lookup r "task_type" = Some (PStr "RecaptchaV3TaskProxylessM1")
     /\ Py.lookup r "pricing" =
          Some (PDict [ ("currency", PStr "CNY");
                        ("price_per_1000_tasks", PFloat 15.0);
                        ("price_per_task", PFloat 0.015);
                        ("points_per_task", PFloat 15.0) ])
     /\ Py.lookup r "page_action" = Some (PStr pa))
  /\ (forall pid wurl pa log resp,
        configured ->
        upstream (sent_request pid wurl pa) = inr resp ->
        Response.status_code resp = 200%Z ->
        Response.json resp = inr (PDict [("token", PStr "T1")]) ->
        run (solve pid wurl pa) log =
        (inr [ ("name", PStr "Flow-RecaptchaV3TaskProxylessM1");
               ("object", PStr "captcha.solution");
               ("provider", PStr "browser");
               ("page_action", PStr pa);
               ("token", PStr "T1");
               ("duration_ms", PInt 0);
               ("browser_id", PInt 0);
               ("task_type", PStr "RecaptchaV3TaskProxylessM1");
               ("pricing", PDict [ ("currency", PStr "CNY");
                                   ("price_per_1000_tasks", PFloat 15.0);
                                   ("price_per_task", PFloat 0.015);
                                   ("points_per_task", PFloat 15.0) ]) ],
         (log ++ [sent_request pid wurl pa])%list)).
Proof.
  split.
  - intros pid wurl pa log r log' Hrun.
    destruct configured_dec as [Hcfg | Hn].
    + destruct (solve_configured_outcome pid wurl pa log Hcfg) as (r0 & Hr0 & Hout).
      rewrite Hr0 in Hrun. injection Hrun as -> _.
      inversion Hout; subst. repeat split; reflexivity.
    + destruct (solve_unconfigured pid wurl pa log Hn) as (m & Hm).
      rewrite Hm in Hrun. discriminate.
  - intros pid wurl pa log resp Hcfg Hup Hst Hjson.
    assert (Hlt : (Response.status_code resp < 400)%Z) by lia.
    exact (solve_after_token _ _ _ log _ _ _ Hcfg Hup Hjson Hlt eq_refl eq_refl).
Qed.

Lemma payload_items pid wurl pa :
  payload pid wurl pa =
  ([("page_action", PStr pa)]
   ++ match pid with
      | Some p => if PyStr.truthy p then [("project_id", PStr p)] else []
      | None => []
      end
   ++ (if PyStr.truthy (resolved_website_url pid wurl)
       then [("website_url", PStr (resolved_website_url pid wurl))] else []))%list.
Proof.
  unfold payload.
  destruct pid as [p | ]; [destruct (PyStr.truthy p) | ];
    destruct (PyStr.truthy (resolved_website_url _ wurl)); reflexivity.
Qed.

(** C6. The website URL sent is the trimmed [website_url], or, when that
    is empty and [project_id] is given (not [None], not empty), the fixed
    prefix followed by [project_id]. The payload of the request a
    configured call sends holds [page_action] always, [project_id] only
    when it is given, [website_url] only when the resolved value is
    non-empty, and nothing else: no optional field is sent as [None] or
    as an empty string. *)
Theorem solve_payload pid wurl pa :
  let trimmed := PyStr.strip (or_empty wurl) in
  let resolved := resolved_website_url pid wurl in
  (trimmed <> "" -> resolved = trimmed)
  /\ (forall p, trimmed = "" -> pid = Some p -> p <> "" ->
      resolved = "https://labs.google/fx/tools/flow/project/" ++ p)
  /\ (trimmed = "" -> opt_truthy pid = false -> resolved = "")
  /\ (forall log, configured ->
      exists r req,
        run (solve pid wurl pa) log = (r, (log ++ [req])%list)
        /\ Request.json req = payload pid wurl pa)
  /\ Py.lookup (payload pid wurl pa) "page_action" = Some (PStr pa)
  /\ Py.lookup (payload pid wurl pa) "project_id" =
     match pid with
     | Some p => if PyStr.truthy p then Some (PStr p) else None
     | None => None
     end
  /\ Py.lookup (payload pid wurl pa) "website_url" =
     (if PyStr.truthy resolved then Some (PStr resolved) else None)
  /\ (forall k v, In (k, v) (payload pid wurl pa) ->
      (k = "page_action" /\ v = PStr pa)
      \/ (k = "project_id" /\ exists p, pid = Some p /\ p <> "" /\ v = PStr p)
      \/ (k = "website_url" /\ resolved <> "" /\ v = PStr resolved)).
Proof.
  intros trimmed resolved. subst trimmed resolved.
  repeat match goal with |- _ /\ _ => split end.
  - intros Ht. apply truthy_nonempty in Ht. unfold resolved_website_url.
    cbv zeta. rewrite Ht. now destruct pid.
  - intros p Ht -> Hp. apply truthy_nonempty in Hp. unfold resolved_website_url.
    cbv zeta. rewrite Ht, Hp. reflexivity.
  - intros Ht Hpid. unfold resolved_website_url. cbv zeta. rewrite Ht.
    destruct pid as [p | ]; [ | reflexivity].
    cbn [opt_truthy] in Hpid. rewrite Hpid. reflexivity.
  - intros log Hcfg.
    destruct (solve_configured_outcome pid wurl pa log Hcfg) as (r & Hr & _).
    exists r, (sent_request pid wurl pa). split; [exact Hr | reflexivity].
  - rewrite payload_items. reflexivity.
  - rewrite payload_items.
    destruct pid as [p | ]; [destruct (PyStr.truthy p) | ];
      destruct (PyStr.truthy (resolved_website_url _ wurl)); reflexivity.
  - rewrite payload_items.
    destruct pid as [p | ]; [destruct (PyStr.truthy p) | ];
      destruct (PyStr.truthy (resolved_website_url _ wurl)); reflexivity.
  - intros k v. rewrite payload_items. rewrite !in_app_iff.
    intros [Hin | [Hin | Hin]].
    + destruct Hin as [[= <- <-] | []]. now left.
    + destruct pid as [p | ]; [ | destruct Hin].
      destruct (PyStr.truthy p) eqn:Hp; [ | destruct Hin].
      destruct Hin as [[= <- <-] | []]. right; left. split; [reflexivity | ].
      exists p. apply truthy_nonempty in Hp. now repeat split.
    + destruct (PyStr.truthy (resolved_website_url pid wurl)) eqn:Hr; [ | destruct Hin].
      destruct Hin as [[= <- <-] | []]. right; right.
      apply truthy_nonempty in Hr. now repeat split.
Qed.

Lemma take_length (n : nat) (s : string) : String.length (PyStr.take n s) <= n.
Proof.
  revert s. induction n as [ | n IH]; intros [ | c r]; cbn; try lia.
  specialize (IH r). lia.
Qed.

Lemma take_prefix (n : nat) (s : string) : exists rest, s = PyStr.take n s ++ rest.
Proof.
  revert s. induction n as [ | n IH]; intros s.
  - exists s. now destruct s.
  - destruct s as [ | c r]; [now exists "" | ].
    destruct (IH r) as (rest & Hrest). exists rest. cbn. now rewrite <- Hrest.
Qed.

(** C7 (amended). When the body does not decode as JSON, whatever the
    status code (the decoding comes before the status test), the call
    fails with the [RuntimeError] whose message is
    [flow captcha service error: invalid json response (status=<code>): <preview>],
    the preview being the first 200 characters of the raw body (all of
    it when shorter). *)
Theorem solve_invalid_json_message pid wurl pa log resp e :
  configured ->
  upstream (sent_request pid wurl pa) = inr resp ->
  Response.json resp = inl e ->
  let preview := PyStr.take 200 (or_empty (Response.text resp)) in
  run (solve pid wurl pa) log =
  (inl (RuntimeError ("flow captcha service error: invalid json response (status="
                      ++ PyStr.of_int (Response.status_code resp) ++ "): " ++ preview)),
   (log ++ [sent_request pid wurl pa])%list)
  /\ String.length preview <= 200
  /\ exists rest, or_empty (Response.text resp) = preview ++ rest.
Proof.
  intros Hcfg Hup Hjson preview. split; [ | split].
  - exact (solve_invalid_json _ _ _ log _ _ Hcfg Hup Hjson).
  - apply take_length.
  - apply take_prefix.
Qed.

(** C8. With [project_id] absent or empty, [get_token] returns [None]
    at once: no exception, nothing sent, and the configuration is not
    looked at (the statement holds for every [config]). With a non-empty
    [project_id] it is [solve] called with [website_url=None], and what
    it returns is the [token] entry of the result. *)
Theorem get_token_shortcut_and_delegation pid pa log :
  (opt_truthy pid = false -> run (get_token pid pa) log = (inr PNone, log))
  /\ (opt_truthy pid = true ->
      run (get_token pid pa) log =
      match run (solve pid None pa) log with
      | (inl e, log') => (inl e, log')
      | (inr result, log') => (inr (Py.dict_get1 result "token"), log')
      end).
Proof.
  unfold get_token. split; intros ->; cbn [negb]; autorewrite with run.
  - reflexivity.
  - destruct (run (solve pid None pa) log) as [[e | result] log'];
      autorewrite with run; reflexivity.
Qed.


(** C10. For a response with a 2xx status whose body is a JSON object
    with no mapping-valued [error], with [token], [gRecaptchaResponse]
    and [g_recaptcha_response] each absent or falsy, and with a
    [solution] that is present and not a mapping, [solve] raises the
    [AttributeError] of the unguarded [.get] on that value: neither the
    configuration [ValueError] nor a [RuntimeError]. *)
Theorem solve_unguarded_solution pid wurl pa log resp d v :
  configured ->
  upstream (sent_request pid wurl pa) = inr resp ->
  (200 <= Response.status_code resp < 300)%Z ->
  Response.json resp = inr (PDict d) ->
  Py.is_dict (Py.dict_get1 d "error") = false ->
  Py.truthy (Py.dict_get1 d "token") = false ->
  Py.truthy (Py.dict_get1 d "gRecaptchaResponse") = false ->
  Py.truthy (Py.dict_get1 d "g_recaptcha_response") = false ->
  Py.lookup d "solution" = Some v ->
  Py.is_dict v = false ->
  run (solve pid wurl pa) log =
  (inl (AttributeError ("'" ++ Py.type_name v ++ "' object has no attribute 'get'")),
   (log ++ [sent_request pid wurl pa])%list)
  /\ (forall m, fst (run (solve pid wurl pa) log) <> inl (ValueError m))
  /\ (forall m, fst (run (solve pid wurl pa) log) <> inl (RuntimeError m)).
Proof.
  intros Hcfg Hup Hst Hjson Herr H1 H2 H3 Hsol Hv.
  assert (Hlt : (Response.status_code resp < 400)%Z) by lia.
  assert (Htop : top_level_token d = None).
  { unfold top_level_token. cbn [find]. now rewrite H1, H2, H3. }
  assert (Htok : token_of (PDict d) = inl (AttributeError (no_get v))).
  { rewrite (token_of_solution _ Htop). unfold Py.dict_get. rewrite Hsol.
    apply get_non_dict, Hv. }
  pose proof (solve_after_token _ _ _ log _ _ _ Hcfg Hup Hjson Hlt Herr Htok) as Hrun.
  cbv beta iota in Hrun. rewrite Hrun.
  split; [reflexivity | split; intros m; cbn [fst]; discriminate].
Qed.

(** ** Further properties *)

(** *** Stripping *)

Lemma all_by_app (p : ascii -> bool) (a b : string) :
  all_by p (a ++ b) = all_by p a && all_by p b.
Proof.
  induction a as [ | c a IH]; cbn; [reflexivity | ].
  rewrite IH. now rewrite andb_assoc.
Qed.

Lemma lstrip_by_spec (p : ascii -> bool) (s : string) :
  exists l, s = l ++ PyStr.lstrip_by p s
            /\ all_by p l = true
            /\ starts_by p (PyStr.lstrip_by p s) = false.
Proof.
  induction s as [ | c r IH]; cbn.
  - exists "". now repeat split.
  - destruct (p c) eqn:Hc.
    + destruct IH as (l & Hl & Hall & Hst).
      exists (String c l). cbn. rewrite Hc, Hall, <- Hl. now repeat split.
    + exists "". cbn. now repeat split.
Qed.

Lemma rstrip_by_spec (p : ascii -> bool) (s : string) :
  exists r, s = PyStr.rstrip_by p s ++ r
            /\ all_by p r = true
            /\ ends_by p (PyStr.rstrip_by p s) = false.
Proof.
  induction s as [ | c s IH]; cbn.
  - exists "". now repeat split.
  - destruct IH as (r & Hr & Hall & Hend).
    destruct (PyStr.rstrip_by p s) as [ | a t] eqn:Hs.
    + cbn in Hr. subst s. destruct (p c) eqn:Hc.
      * exists (String c r). cbn. rewrite Hc, Hall. now repeat split.
      * exists r. cbn. now repeat split.
    + exists r. cbn. rewrite Hr at 1. now repeat split.
Qed.

Lemma rstrip_by_keeps_start (p : ascii -> bool) (s : string) :
  starts_by p s = false -> starts_by p (PyStr.rstrip_by p s) = false.
Proof.
  destruct s as [ | c r]; cbn; [reflexivity | ]. intros Hc.
  destruct (PyStr.rstrip_by p r); [rewrite Hc | ]; exact Hc.
Qed.

Lemma lstrip_by_fixed (p : ascii -> bool) (s : string) :
  starts_by p s = false -> PyStr.lstrip_by p s = s.
Proof. destruct s as [ | c r]; cbn; [reflexivity | ]. now intros ->. Qed.

Lemma rstrip_by_fixed (p : ascii -> bool) (s : string) :
  ends_by p s = false -> PyStr.rstrip_by p s = s.
Proof.
  induction s as [ | c r IH]; cbn; [reflexivity | ].
  destruct r as [ | a t].
  - cbn. now intros ->.
  - intros H. rewrite (IH H). reflexivity.
Qed.

Lemma lstrip_by_all (p : ascii -> bool) (s : string) :
  all_by p s = true -> PyStr.lstrip_by p s = "".
Proof.
  induction s as [ | c r IH]; cbn; [reflexivity | ].
  intros H. apply andb_true_iff in H. destruct H as (Hc & Hr).
  rewrite Hc. exact (IH Hr).
Qed.

(** X1. [s.strip()] removes a whitespace-only prefix and a
    whitespace-only suffix and nothing else: what is left neither starts
    nor ends with whitespace, and stripping it again changes nothing. *)
Theorem strip_spec (s : string) :
  (exists l r, s = l ++ PyStr.strip s ++ r
               /\ all_by PyStr.isspace l = true
               /\ all_by PyStr.isspace r = true)
  /\ starts_by PyStr.isspace (PyStr.strip s) = false
  /\ ends_by PyStr.isspace (PyStr.strip s) = false
  /\ PyStr.strip (PyStr.strip s) = PyStr.strip s.
Proof.
  unfold PyStr.strip.
  destruct (lstrip_by_spec PyStr.isspace s) as (l & Hl & Hlall & Hst).
  destruct (rstrip_by_spec PyStr.isspace (PyStr.lstrip_by PyStr.isspace s))
    as (r & Hr & Hrall & Hend).
  pose proof (rstrip_by_keeps_start _ _ Hst) as Hst'.
  repeat split.
  - exists l, r. rewrite <- Hr. now repeat split.
  - exact Hst'.
  - exact Hend.
  - rewrite (lstrip_by_fixed _ _ Hst'). now rewrite (rstrip_by_fixed _ _ Hend).
Qed.

Lemma strip_empty_iff (s : string) :
  PyStr.strip s = "" <-> all_by PyStr.isspace s = true.
Proof.
  split.
  - unfold PyStr.strip. intros H.
    destruct (lstrip_by_spec PyStr.isspace s) as (l & Hs & Hl & _).
    destruct (rstrip_by_spec PyStr.isspace (PyStr.lstrip_by PyStr.isspace s))
      as (r & Hr & Hrall & _).
    rewrite H in Hr. cbn in Hr. rewrite Hr in Hs.
    rewrite Hs, all_by_app, Hl, Hrall. reflexivity.
  - intros H. unfold PyStr.strip. now rewrite (lstrip_by_all _ _ H).
Qed.

Lemma or_empty_some (s : string) : or_empty (Some s) = s.
Proof. now destruct s. Qed.

Lemma trimmed_empty_iff (x : option string) :
  PyStr.strip (or_empty x) = "" <-> blank x = true.
Proof.
  destruct x as [s | ].
  - rewrite or_empty_some. apply strip_empty_iff.
  - cbn. now split.
Qed.

Lemma trimmed_nonempty_iff (x : option string) :
  PyStr.strip (or_empty x) <> "" <-> blank x = false.
Proof.
  rewrite trimmed_empty_iff. destruct (blank x); split; congruence.
Qed.

(** X2. A required setting counts as missing exactly when it is [None],
    empty or made of whitespace only: [solve] then raises the
    [ValueError] naming the first such setting and sends nothing, and
    with none of the three blank the call is configured. *)
Theorem blank_settings_rejected pid wurl pa log :
  (blank (flow_captcha_service_base_url config) = true ->
   run (solve pid wurl pa) log =
   (inl (ValueError "FlowCaptchaServiceBaseURL is not configured"), log))
  /\ (blank (flow_captcha_service_base_url config) = false ->
      blank (flow_captcha_service_solve_path config) = true ->
      run (solve pid wurl pa) log =
      (inl (ValueError "FlowCaptchaServiceSolvePath is not configured"), log))
  /\ (blank (flow_captcha_service_base_url config) = false ->
      blank (flow_captcha_service_solve_path config) = false ->
      blank (flow_captcha_service_api_key config) = true ->
      run (solve pid wurl pa) log =
      (inl (ValueError "FlowCaptchaServiceApiKey is not configured"), log))
  /\ (blank (flow_captcha_service_base_url config) = false ->
      blank (flow_captcha_service_solve_path config) = false ->
      blank (flow_captcha_service_api_key config) = false ->
      configured).
Proof.
  repeat split.
  - intros Hb. apply solve_no_base_url. now apply trimmed_empty_iff.
  - intros Hb Hp. apply solve_no_solve_path.
    + now apply trimmed_nonempty_iff.
    + now apply trimmed_empty_iff.
  - intros Hb Hp Hk. apply solve_no_api_key.
    + now apply trimmed_nonempty_iff.
    + now apply trimmed_nonempty_iff.
    + now apply trimmed_empty_iff.
  - now apply trimmed_nonempty_iff.
  - now apply trimmed_nonempty_iff.
  - now apply trimmed_nonempty_iff.
Qed.

(** *** The target URL *)


(** *** A body that is no JSON object *)

(** X4. When the body decodes to a JSON value that is not an object (a
    list, a string, a number, a boolean, null), a configured call ends,
    whatever the status code, in the [AttributeError] of the first
    [.get] on it, after the one request. *)
Theorem solve_non_object_body pid wurl pa log resp j :
  configured ->
  upstream (sent_request pid wurl pa) = inr resp ->
  Response.json resp = inr j ->
  Py.is_dict j = false ->
  run (solve pid wurl pa) log =
  (inl (AttributeError ("'" ++ Py.type_name j ++ "' object has no attribute 'get'")),
   (log ++ [sent_request pid wurl pa])%list).
Proof.
  intros Hcfg Hup Hjson Hj.
  exact (solve_non_object _ _ _ log _ _ Hcfg Hup Hjson Hj).
Qed.

(** *** One request, no memory *)

Lemma solve_configured_run pid wurl pa :
  configured ->
  exists r, outcome pa r
            /\ forall log, run (solve pid wurl pa) log
                            = (r, (log ++ [sent_request pid wurl pa])%list).
Proof.
  intros Hcfg.
  destruct (upstream (sent_request pid wurl pa)) as [e | resp] eqn:Hup.
  { eexists; split; [ | intros log; exact (solve_transport_failure _ _ _ log _ Hcfg Hup)].
    constructor. }
  destruct (Response.json resp) as [e | j] eqn:Hjson.
  { eexists; split; [ | intros log; exact (solve_invalid_json _ _ _ log _ _ Hcfg Hup Hjson)].
    constructor. }
  destruct (Py.is_dict j) eqn:Hj.
  2:{ eexists; split;
        [ | intros log; exact (solve_non_object _ _ _ log _ _ Hcfg Hup Hjson Hj)].
      now constructor. }
  destruct j as [ | | | | | | d]; try discriminate.
  destruct (Z.le_gt_cases 400 (Response.status_code resp)) as [Hst | Hst].
  { eexists; split;
      [ | intros log; exact (solve_status_error _ _ _ log _ _ Hcfg Hup Hjson Hst)].
    now constructor. }
  destruct (Py.is_dict (Py.dict_get1 d "error")) eqn:Herr.
  { eexists; split;
      [ | intros log; exact (solve_logical_error _ _ _ log _ _ Hcfg Hup Hjson Hst Herr)].
    now constructor. }
  eexists; split;
    [ | intros log;
        exact (solve_after_token _ _ _ log _ _ _ Hcfg Hup Hjson Hst Herr eq_refl)].
  destruct (token_of (PDict d)) as [e | token] eqn:Htok.
  - apply token_of_raises in Htok. destruct Htok as (_ & v & _ & Hv & ->).
    now constructor.
  - destruct (Py.truthy token) eqn:Ht; now constructor.
Qed.

Lemma solve_unconfigured_run pid wurl pa :
  ~ configured ->
  exists m, forall log, run (solve pid wurl pa) log = (inl (ValueError m), log).
Proof.
  intros Hn.
  destruct cfg_base_url as [ | a b] eqn:Hb.
  { eexists. intros log. now apply solve_no_base_url. }
  destruct cfg_solve_path as [ | a' p] eqn:Hp.
  { eexists. intros log.
    apply solve_no_solve_path; [rewrite Hb; discriminate | exact Hp]. }
  destruct cfg_api_key as [ | a'' k] eqn:Hk.
  { eexists. intros log.
    apply solve_no_api_key;
      [rewrite Hb; discriminate | rewrite Hp; discriminate | exact Hk]. }
  exfalso. apply Hn. unfold configured. rewrite Hb, Hp, Hk.
  repeat split; discriminate.
Qed.

(** X5. A call of [solve] keeps no memory and never retries: its
    outcome does not depend on the requests sent before it, it leaves
    those in the log untouched, and it adds at most one request of its
    own, whatever the upstream answers. *)
Theorem solve_log_frame pid wurl pa log :
  run (solve pid wurl pa) log =
  (fst (run (solve pid wurl pa) []), (log ++ snd (run (solve pid wurl pa) []))%list)
  /\ length (snd (run (solve pid wurl pa) [])) <= 1.
Proof.
  destruct configured_dec as [Hcfg | Hn].
  - destruct (solve_configured_run pid wurl pa Hcfg) as (r & _ & Hrun).
    rewrite (Hrun log), (Hrun []). cbn. split; [reflexivity | lia].
  - destruct (solve_unconfigured_run pid wurl pa Hn) as (m & Hrun).
    rewrite (Hrun log), (Hrun []). cbn. rewrite app_nil_r. split; [reflexivity | lia].
Qed.

(** *** What a result tells *)

Lemma token_of_returns_guarded (d : Dict) (t : Any) :
  token_of (PDict d) = inr t -> solution_guarded d = true.
Proof.
  unfold solution_guarded.
  destruct (top_level_token d) as [t0 | ] eqn:Htop.
  - intros _. now destruct (Py.lookup d "solution") as [[ | | | | | | ] | ].
  - rewrite (token_of_solution _ Htop). unfold Py.dict_get.
    destruct (Py.lookup d "solution") as [[ | | | | | | ] | ];
      cbn [Py.get1 Py.get]; intros H; now try discriminate.
Qed.

(** X6. [solve] returns a result only when the settings are complete,
    the one request was answered with a status below 400 and a JSON
    object that has no mapping-valued [error] and a truthy token field;
    the result then has the nine keys in their fixed order, the token
    being the first truthy token field of the body: there is no partial
    result. *)
Theorem solve_success_inversion pid wurl pa log r log' :
  run (solve pid wurl pa) log = (inr r, log') ->
  configured
  /\ log' = (log ++ [sent_request pid wurl pa])%list
  /\ exists resp d token,
       upstream (sent_request pid wurl pa) = inr resp
       /\ (Response.status_code resp < 400)%Z
       /\ Response.json resp = inr (PDict d)
       /\ Py.is_dict (Py.dict_get1 d "error") = false
       /\ find Py.truthy (token_fields d) = Some token
       /\ Py.truthy token = true
       /\ r = solve_result pa token d
       /\ map fst r = [ "name"; "object"; "provider"; "page_action"; "token";
                        "duration_ms"; "browser_id"; "task_type"; "pricing" ].
Proof.
  intros Hrun.
  destruct configured_dec as [Hcfg | Hn].
  2:{ destruct (solve_unconfigured pid wurl pa log Hn) as (m & Hm).
      rewrite Hm in Hrun. discriminate. }
  split; [exact Hcfg | ].
  destruct (upstream (sent_request pid wurl pa)) as [e | resp] eqn:Hup.
  { rewrite (solve_transport_failure _ _ _ log _ Hcfg Hup) in Hrun. discriminate. }
  destruct (Response.json resp) as [e | j] eqn:Hjson.
  { rewrite (solve_invalid_json _ _ _ log _ _ Hcfg Hup Hjson) in Hrun. discriminate. }
  destruct (Py.is_dict j) eqn:Hj.
  2:{ rewrite (solve_non_object _ _ _ log _ _ Hcfg Hup Hjson Hj) in Hrun. discriminate. }
  destruct j as [ | | | | | | d]; try discriminate.
  destruct (Z.le_gt_cases 400 (Response.status_code resp)) as [Hst | Hst].
  { rewrite (solve_status_error _ _ _ log _ _ Hcfg Hup Hjson Hst) in Hrun. discriminate. }
  destruct (Py.is_dict (Py.dict_get1 d "error")) eqn:Herr.
  { rewrite (solve_logical_error _ _ _ log _ _ Hcfg Hup Hjson Hst Herr) in Hrun.
    discriminate. }
  rewrite (solve_after_token _ _ _ log _ _ _ Hcfg Hup Hjson Hst Herr eq_refl) in Hrun.
  destruct (token_of (PDict d)) as [e | token] eqn:Htok; [discriminate | ].
  destruct (Py.truthy token) eqn:Ht; [ | discriminate].
  injection Hrun as <- <-. split; [reflexivity | ].
  exists resp, d, token.
  destruct (token_of_guarded d (token_of_returns_guarded _ _ Htok)) as (t0 & Ht0 & Hfind).
  rewrite Htok in Ht0. injection Ht0 as <-. rewrite Ht in Hfind.
  now repeat split.
Qed.

Lemma solve_success_shape pid wurl pa log r log' :
  run (solve pid wurl pa) log = (inr r, log') ->
  exists token d, r = solve_result pa token d /\ Py.truthy token = true.
Proof.
  intros Hrun.
  destruct configured_dec as [Hcfg | Hn].
  - destruct (solve_configured_outcome pid wurl pa log Hcfg) as (r0 & Hr0 & Hout).
    rewrite Hr0 in Hrun. injection Hrun as -> _.
    inversion Hout; subst. now exists token, d.
  - destruct (solve_unconfigured pid wurl pa log Hn) as (m & Hm).
    rewrite Hm in Hrun. discriminate.
Qed.

(** *** get_token *)

(** X7. When [get_token] returns, [None] means the shortcut and nothing
    else: with [project_id] absent or empty it returns [None] and sends
    nothing; with a non-empty [project_id] it returns the token of the
    result [solve] gave, which is truthy and so never [None]. An
    upstream problem is never reported as [None]. *)
Theorem get_token_none_iff pid pa log v log' :
  run (get_token pid pa) log = (inr v, log') ->
  (opt_truthy pid = false -> v = PNone /\ log' = log)
  /\ (opt_truthy pid = true ->
      Py.truthy v = true /\ v <> PNone
      /\ exists result, run (solve pid None pa) log = (inr result, log')
                        /\ Py.lookup result "token" = Some v).
Proof.
  unfold get_token. intros Hrun. split; intros Hpid; rewrite Hpid in Hrun;
    cbn [negb] in Hrun; autorewrite with run in Hrun.
  - now injection Hrun as <- <-.
  - destruct (run (solve pid None pa) log) as [[e | result] l] eqn:Hs;
      autorewrite with run in Hrun; [discriminate | ].
    injection Hrun as <- <-.
    destruct (solve_success_shape pid None pa log result l Hs) as (token & d & -> & Ht).
    change (Py.dict_get1 (solve_result pa token d) "token") with token.
    repeat split; [exact Ht | intros ->; discriminate | ].
    exists (solve_result pa token d). now split.
Qed.


(** *** Item assignment on a dict *)

Lemma lookup_none_iff (d : Dict) (k : string) :
  Py.lookup d k = None <-> ~ In k (map fst d).
Proof.
  induction d as [ | [k' v'] d IH]; cbn.
  - split; [intros _ [] | reflexivity].
  - destruct (String.eqb_spec k k') as [-> | Hne].
    + split; [discriminate | intros H; exfalso; apply H; now left].
    + rewrite IH. split.
      * intros H [Heq | Hin]; [now apply Hne | now apply H].
      * intros H Hin. apply H. now right.
Qed.

Lemma setitem_keys (d : Dict) (k : string) (v : Any) :
  map fst (Py.setitem d k v) =
  match Py.lookup d k with
  | Some _ => map fst d
  | None => (map fst d ++ [k])%list
  end.
Proof.
  induction d as [ | [k' v'] d IH]; cbn; [reflexivity | ].
  destruct (String.eqb_spec k k') as [-> | Hne]; cbn; [reflexivity | ].
  rewrite IH. now destruct (Py.lookup d k).
Qed.

(** X9. Item assignment [d[k] = v], as the payload is built with:
    afterwards [k] maps to [v] and every other key to what it mapped to
    before; a new key goes last, an old one keeps its place; and keys
    stay distinct. *)
Theorem setitem_lookup (d : Dict) (k : string) (v : Any) :
  Py.lookup (Py.setitem d k v) k = Some v
  /\ (forall k', k' <> k -> Py.lookup (Py.setitem d k v) k' = Py.lookup d k')
  /\ (Py.lookup d k = None -> Py.setitem d k v = (d ++ [(k, v)])%list)
  /\ (Py.lookup d k <> None -> map fst (Py.setitem d k v) = map fst d)
  /\ (NoDup (map fst d) -> NoDup (map fst (Py.setitem d k v))).
Proof.
  repeat split.
  - induction d as [ | [k' v'] d IH]; cbn.
    + now rewrite String.eqb_refl.
    + destruct (String.eqb_spec k k') as [-> | Hne]; cbn.
      * now rewrite String.eqb_refl.
      * destruct (String.eqb_spec k k'); [contradiction | exact IH].
  - intros k0 Hk0. induction d as [ | [k' v'] d IH]; cbn.
    + destruct (String.eqb_spec k0 k); [contradiction | reflexivity].
    + destruct (String.eqb_spec k k') as [-> | Hne]; cbn.
      * destruct (String.eqb_spec k0 k'); [contradiction | reflexivity].
      * now rewrite IH.
  - induction d as [ | [k' v'] d IH]; cbn; [reflexivity | ].
    destruct (String.eqb_spec k k') as [-> | Hne]; [discriminate | ].
    intros H. now rewrite (IH H).
  - intros H. rewrite setitem_keys. destruct (Py.lookup d k); [reflexivity | contradiction].
  - intros Hnd. rewrite setitem_keys.
    destruct (Py.lookup d k) eqn:Hk; [exact Hnd | ].
    apply lookup_none_iff in Hk. apply NoDup_app; [exact Hnd | | ].
    + constructor; [intros [] | constructor].
    + intros a Ha [<- | []]. now apply Hk.
Qed.

(** *** The preview of an undecodable body *)

Lemma take_all (n : nat) (s : string) :
  String.length s <= n -> PyStr.take n s = s.
Proof.
  revert s. induction n as [ | n IH]; intros [ | c r]; cbn; try reflexivity; try lia.
  intros H. rewrite IH; [reflexivity | lia].
Qed.

Lemma take_length_min (n : nat) (s : string) :
  String.length (PyStr.take n s) = Nat.min n (String.length s).
Proof.
  revert s. induction n as [ | n IH]; intros [ | c r]; cbn; try reflexivity.
  now rewrite IH.
Qed.

(** X10. In the failure for a body that is no JSON, a body of at most
    200 characters is quoted whole, and a longer one is cut to exactly
    its first 200 characters. *)
Theorem solve_preview_bounds pid wurl pa log resp e :
  configured ->
  upstream (sent_request pid wurl pa) = inr resp ->
  Response.json resp = inl e ->
  (String.length (or_empty (Response.text resp)) <= 200 ->
   run (solve pid wurl pa) log =
   (inl (RuntimeError ("flow captcha service error: invalid json response (status="
                       ++ PyStr.of_int (Response.status_code resp) ++ "): "
                       ++ or_empty (Response.text resp))),
    (log ++ [sent_request pid wurl pa])%list))
  /\ (200 < String.length (or_empty (Response.text resp)) ->
      exists preview rest,
        run (solve pid wurl pa) log =
        (inl (RuntimeError ("flow captcha service error: invalid json response (status="
                            ++ PyStr.of_int (Response.status_code resp) ++ "): "
                            ++ preview)),
         (log ++ [sent_request pid wurl pa])%list)
        /\ String.length preview = 200
        /\ or_empty (Response.text resp) = preview ++ rest
        /\ rest <> "").
Proof.
  intros Hcfg Hup Hjson.
  pose proof (solve_invalid_json _ _ _ log _ _ Hcfg Hup Hjson) as Hrun.
  split.
  - intros Hlen. now rewrite (take_all _ _ Hlen) in Hrun.
  - intros Hlen.
    destruct (take_prefix 200 (or_empty (Response.text resp))) as (rest & Hrest).
    exists (PyStr.take 200 (or_empty (Response.text resp))), rest.
    pose proof (take_length_min 200 (or_empty (Response.text resp))) as Hmin.
    repeat split.
    + exact Hrun.
    + lia.
    + exact Hrest.
    + intros ->. rewrite Hrest in Hlen at 1.
      assert (Happ : forall a : string, a ++ "" = a)
        by (intros a; induction a as [ | c a IH]; cbn; [reflexivity | now rewrite IH]).
      rewrite Happ in Hlen. lia.
Qed.

(** *** A string-valued error *)

(** X11. On a status of 400 or more, a string-valued [error] of the
    body is reported verbatim, also when it is empty, whatever else the
    body holds: the [message] field and the rest of the body are not
    looked at. *)
Theorem solve_string_error_verbatim pid wurl pa log resp d s :
  configured ->
  upstream (sent_request pid wurl pa) = inr resp ->
  Response.json resp = inr (PDict d) ->
  (400 <= Response.status_code resp)%Z ->
  Py.lookup d "error" = Some (PStr s) ->
  _extract_error_message (PDict d) = inr s
  /\ run (solve pid wurl pa) log =
     (inl (RuntimeError ("flow captcha service error: upstream status "
                         ++ PyStr.of_int (Response.status_code resp) ++ ": " ++ s)),
      (log ++ [sent_request pid wurl pa])%list).
Proof.
  intros Hcfg Hup Hjson Hst Herr.
  assert (Hmsg : error_message_policy d = s).
  { unfold error_message_policy. now rewrite Herr. }
  split.
  - rewrite extract_error_message_policy. now rewrite Hmsg.
  - rewrite (solve_status_error _ _ _ log _ _ Hcfg Hup Hjson Hst). now rewrite Hmsg.
Qed.

(** *** Numerals *)


















End FlowCaptchaService.

(** ** Concrete runs *)

Lemma sample_configured : configured Sample.settings.
Proof. vm_compute. repeat split; discriminate. Qed.

Lemma sample_request :
  sent_request Sample.join Sample.settings (Some "abc123") None "IMAGE_GENERATION"
  = Sample.request.
Proof. vm_compute. reflexivity. Qed.

(** C3 at blank settings: the base URL is reported first, the API key
    when it alone is missing, and the log stays empty. *)
Lemma solve_configuration_errors_witness :
  run (solve Sample.show_float Sample.join Sample.blank_settings Sample.unreachable
         (Some "abc123") None "IMAGE_GENERATION") []
  = (inl (ValueError "FlowCaptchaServiceBaseURL is not configured"), [])
  /\ run (solve Sample.show_float Sample.join Sample.keyless_settings Sample.unreachable
            (Some "abc123") None "IMAGE_GENERATION") []
     = (inl (ValueError "FlowCaptchaServiceApiKey is not configured"), []).
Proof.
  split.
  - apply (proj1 (solve_configuration_errors Sample.show_float Sample.join
                    Sample.blank_settings Sample.unreachable
                    (Some "abc123") None "IMAGE_GENERATION" [])).
    reflexivity.
  - apply (proj2 (proj2 (solve_configuration_errors Sample.show_float Sample.join
                           Sample.keyless_settings Sample.unreachable
                           (Some "abc123") None "IMAGE_GENERATION" []))).
    + vm_compute. discriminate.
    + vm_compute. discriminate.
    + reflexivity.
Defined.

(** C1, the claim as stated fails: on HTTP 200 with body
    [{"error": "rate_limited"}] the message is the missing-token one,
    not [rate_limited]. *)
Lemma string_error_on_200_counterexample :
  fst (run (solve Sample.show_float Sample.join Sample.settings
              (Sample.respond 200 Sample.raw (inr Sample.rate_limited))
              (Some "abc123") None "IMAGE_GENERATION") [])
  = inl (RuntimeError "flow captcha service error: missing token in upstream response")
  /\ fst (run (solve Sample.show_float Sample.join Sample.settings
                 (Sample.respond 200 Sample.raw (inr Sample.rate_limited))
                 (Some "abc123") None "IMAGE_GENERATION") [])
     <> inl (RuntimeError "rate_limited").
Proof. split; [vm_compute; reflexivity | vm_compute; discriminate]. Qed.

(** C1 (amended) at the sample settings. *)
Lemma solve_string_error_on_200_witness :
  run (solve Sample.show_float Sample.join Sample.settings
         (Sample.respond 200 Sample.raw (inr Sample.rate_limited))
         (Some "abc123") None "IMAGE_GENERATION") []
  = (inl (RuntimeError "flow captcha service error: missing token in upstream response"),
     [Sample.request]).
Proof.
  rewrite <- sample_request.
  exact (proj1 (solve_string_error_on_200 Sample.show_float Sample.join Sample.settings
                  (Sample.respond 200 Sample.raw (inr Sample.rate_limited))
                  (Some "abc123") None "IMAGE_GENERATION" [] _
                  sample_configured eq_refl eq_refl) eq_refl).
Defined.

(** C2, the claim as stated fails twice: with no token field the message
    carries the service prefix, and a [solution] that is no mapping ends
    in an [AttributeError] instead of the missing-token failure. *)
Lemma token_priority_counterexample :
  (fst (run (solve Sample.show_float Sample.join Sample.settings
               (Sample.respond 200 Sample.raw (inr Sample.empty_object))
               (Some "abc123") None "IMAGE_GENERATION") [])
   = inl (RuntimeError "flow captcha service error: missing token in upstream response")
   /\ fst (run (solve Sample.show_float Sample.join Sample.settings
                  (Sample.respond 200 Sample.raw (inr Sample.empty_object))
                  (Some "abc123") None "IMAGE_GENERATION") [])
      <> inl (RuntimeError "missing token in upstream response"))
  /\ fst (run (solve Sample.show_float Sample.join Sample.settings
                 (Sample.respond 200 Sample.raw (inr Sample.pending))
                 (Some "abc123") None "IMAGE_GENERATION") [])
     = inl (AttributeError "'str' object has no attribute 'get'").
Proof.
  split; [split | ]; [vm_compute; reflexivity | vm_compute; discriminate | ].
  vm_compute. reflexivity.
Qed.

(** C2 (amended) on the body [{"gRecaptchaResponse": "T2"}]. *)
Lemma solve_token_priority_witness :
  run (solve Sample.show_float Sample.join Sample.settings
         (Sample.respond 200 Sample.raw (inr Sample.token_T2))
         (Some "abc123") None "IMAGE_GENERATION") []
  = (inr (solve_result "IMAGE_GENERATION" (PStr "T2") [("gRecaptchaResponse", PStr "T2")]),
     [Sample.request])
  /\ Py.lookup (solve_result "IMAGE_GENERATION" (PStr "T2")
                  [("gRecaptchaResponse", PStr "T2")]) "token" = Some (PStr "T2").
Proof.
  rewrite <- sample_request.
  exact (proj1 (solve_token_priority Sample.show_float Sample.join Sample.settings
                  (Sample.respond 200 Sample.raw (inr Sample.token_T2))
                  (Some "abc123") None "IMAGE_GENERATION" [] _ _
                  sample_configured eq_refl eq_refl eq_refl eq_refl eq_refl)
               (PStr "T2") eq_refl).
Defined.

(** C4, the claim as stated fails: both messages carry the service
    prefix before the stated format. *)
Lemma error_message_format_counterexample :
  (fst (run (solve Sample.show_float Sample.join Sample.settings
               (Sample.respond 500 Sample.raw (inr Sample.overload))
               (Some "abc123") None "IMAGE_GENERATION") [])
   = inl (RuntimeError "flow captcha service error: upstream status 500: overload")
   /\ fst (run (solve Sample.show_float Sample.join Sample.settings
                  (Sample.respond 500 Sample.raw (inr Sample.overload))
                  (Some "abc123") None "IMAGE_GENERATION") [])
      <> inl (RuntimeError "upstream status 500: overload"))
  /\ (fst (run (solve Sample.show_float Sample.join Sample.settings
                  (Sample.respond 200 Sample.raw (inr Sample.quota))
                  (Some "abc123") None "IMAGE_GENERATION") [])
      = inl (RuntimeError "flow captcha service error: quota")
      /\ fst (run (solve Sample.show_float Sample.join Sample.settings
                     (Sample.respond 200 Sample.raw (inr Sample.quota))
                     (Some "abc123") None "IMAGE_GENERATION") [])
         <> inl (RuntimeError "quota")).
Proof.
  split; split; [vm_compute; reflexivity | vm_compute; discriminate
                 | vm_compute; reflexivity | vm_compute; discriminate].
Qed.

(** C4 (amended) on HTTP 500 with [{"error": {"message": "overload"}}]. *)
Lemma solve_error_message_format_witness :
  run (solve Sample.show_float Sample.join Sample.settings
         (Sample.respond 500 Sample.raw (inr Sample.overload))
         (Some "abc123") None "IMAGE_GENERATION") []
  = (inl (RuntimeError "flow captcha service error: upstream status 500: overload"),
     [Sample.request]).
Proof.
  rewrite <- sample_request.
  exact (proj1 (proj2 (solve_error_message_format Sample.show_float Sample.join
                         Sample.settings
                         (Sample.respond 500 Sample.raw (inr Sample.overload))
                         (Some "abc123") None "IMAGE_GENERATION" [] _ _
                         sample_configured eq_refl eq_refl))
               ltac:(discriminate)).
Defined.

(** C5 on HTTP 200 with [{"token": "T1"}]. *)
Lemma solve_result_fixed_fields_witness :
  run (solve Sample.show_float Sample.join Sample.settings
         (Sample.respond 200 Sample.raw (inr Sample.token_T1))
         (Some "abc123") None "IMAGE_GENERATION") []
  = (inr [ ("name", PStr "Flow-RecaptchaV3TaskProxylessM1");
           ("object", PStr "captcha.solution");
           ("provider", PStr "browser");
           ("page_action", PStr "IMAGE_GENERATION");
           ("token", PStr "T1");
           ("duration_ms", PInt 0);
           ("browser_id", PInt 0);
           ("task_type", PStr "RecaptchaV3TaskProxylessM1");
           ("pricing", PDict [ ("currency", PStr "CNY");
                               ("price_per_1000_tasks", PFloat 15.0);
                               ("price_per_task", PFloat 0.015);
                               ("points_per_task", PFloat 15.0) ]) ],
     [Sample.request]).
Proof.
  rewrite <- sample_request.
  exact (proj2 (solve_result_fixed_fields Sample.show_float Sample.join Sample.settings
                  (Sample.respond 200 Sample.raw (inr Sample.token_T1)))
               (Some "abc123") None "IMAGE_GENERATION" [] _
               sample_configured eq_refl eq_refl eq_refl).
Defined.

(** C6: a blank [website_url] with project [abc123], and a given
    [website_url] with no project. *)
Lemma solve_payload_witness :
  resolved_website_url (Some "abc123") (Some "  ")
  = "https://labs.google/fx/tools/flow/project/abc123"
  /\ Py.lookup (payload None (Some " https://example.org/page ") "VIDEO_GENERATION")
       "website_url" = Some (PStr "https://example.org/page")
  /\ Py.lookup (payload None (Some " https://example.org/page ") "VIDEO_GENERATION")
       "project_id" = None.
Proof.
  split; [ | split].
  - apply (proj1 (proj2 (solve_payload Sample.show_float Sample.join Sample.settings
                           Sample.unreachable (Some "abc123") (Some "  ")
                           "IMAGE_GENERATION")) "abc123").
    + reflexivity.
    + reflexivity.
    + discriminate.
  - exact (proj1 (proj2 (proj2 (proj2 (proj2 (proj2 (proj2
             (solve_payload Sample.show_float Sample.join Sample.settings
                Sample.unreachable None (Some " https://example.org/page ")
                "VIDEO_GENERATION")))))))).
  - exact (proj1 (proj2 (proj2 (proj2 (proj2 (proj2
             (solve_payload Sample.show_float Sample.join Sample.settings
                Sample.unreachable None (Some " https://example.org/page ")
                "VIDEO_GENERATION"))))))).
Defined.

(** C7, the claim as stated fails: the message carries the service
    prefix before the stated format. *)
Lemma invalid_json_message_counterexample :
  fst (run (solve Sample.show_float Sample.join Sample.settings
              (Sample.respond 200 Sample.garbage Sample.not_json)
              (Some "abc123") None "IMAGE_GENERATION") [])
  = inl (RuntimeError
           "flow captcha service error: invalid json response (status=200): oops, not json")
  /\ fst (run (solve Sample.show_float Sample.join Sample.settings
                 (Sample.respond 200 Sample.garbage Sample.not_json)
                 (Some "abc123") None "IMAGE_GENERATION") [])
     <> inl (RuntimeError "invalid json response (status=200): oops, not json").
Proof. split; [vm_compute; reflexivity | vm_compute; discriminate]. Qed.

(** C7 (amended) on HTTP 502 with a body that is no JSON. *)
Lemma solve_invalid_json_message_witness :
  run (solve Sample.show_float Sample.join Sample.settings
         (Sample.respond 502 Sample.garbage Sample.not_json)
         (Some "abc123") None "IMAGE_GENERATION") []
  = (inl (RuntimeError
            "flow captcha service error: invalid json response (status=502): oops, not json"),
     [Sample.request]).
Proof.
  rewrite <- sample_request.
  exact (proj1 (solve_invalid_json_message Sample.show_float Sample.join Sample.settings
                  (Sample.respond 502 Sample.garbage Sample.not_json)
                  (Some "abc123") None "IMAGE_GENERATION" [] _ _
                  sample_configured eq_refl eq_refl)).
Defined.

(** C8: no project under settings [solve] would reject, and project
    [abc123] under the sample settings. *)
Lemma get_token_shortcut_and_delegation_witness :
  run (get_token Sample.show_float Sample.join Sample.blank_settings Sample.unreachable
         None "IMAGE_GENERATION") [] = (inr PNone, [])
  /\ run (get_token Sample.show_float Sample.join Sample.blank_settings Sample.unreachable
            (Some "") "IMAGE_GENERATION") [] = (inr PNone, [])
  /\ run (get_token Sample.show_float Sample.join Sample.settings
            (Sample.respond 200 Sample.raw (inr Sample.token_T1))
            (Some "abc123") "IMAGE_GENERATION") [] = (inr (PStr "T1"), [Sample.request]).
Proof.
  split; [ | split].
  - exact (proj1 (get_token_shortcut_and_delegation Sample.show_float Sample.join
                    Sample.blank_settings Sample.unreachable None "IMAGE_GENERATION" [])
                 eq_refl).
  - exact (proj1 (get_token_shortcut_and_delegation Sample.show_float Sample.join
                    Sample.blank_settings Sample.unreachable (Some "")
                    "IMAGE_GENERATION" [])
                 eq_refl).
  - rewrite (proj2 (get_token_shortcut_and_delegation Sample.show_float Sample.join
                      Sample.settings
                      (Sample.respond 200 Sample.raw (inr Sample.token_T1))
                      (Some "abc123") "IMAGE_GENERATION" [])
                   eq_refl).
    vm_compute. reflexivity.
Defined.


(** C10 on HTTP 200 with [{"solution": "pending"}]. *)
Lemma solve_unguarded_solution_witness :
  run (solve Sample.show_float Sample.join Sample.settings
         (Sample.respond 200 Sample.raw (inr Sample.pending))
         (Some "abc123") None "IMAGE_GENERATION") []
  = (inl (AttributeError "'str' object has no attribute 'get'"), [Sample.request]).
Proof.
  rewrite <- sample_request.
  exact (proj1 (solve_unguarded_solution Sample.show_float Sample.join Sample.settings
                  (Sample.respond 200 Sample.raw (inr Sample.pending))
                  (Some "abc123") None "IMAGE_GENERATION" []
                  {| Response.status_code := 200;
                     Response.text := Some Sample.raw;
                     Response.json := inr Sample.pending |}
                  [("solution", PStr "pending")] (PStr "pending")
                  sample_configured eq_refl ltac:(cbn; lia) eq_refl
                  eq_refl eq_refl eq_refl eq_refl eq_refl eq_refl)).
Defined.

(** ** Concrete runs of the further properties *)

(** X2 at settings whose base URL is whitespace only and whose API key
    is [None]. *)
Lemma blank_settings_rejected_witness :
  run (solve Sample.show_float Sample.join Sample.blank_settings Sample.unreachable
         (Some "abc123") None "IMAGE_GENERATION") []
  = (inl (ValueError "FlowCaptchaServiceBaseURL is not configured"), []).
Proof.
  exact (proj1 (blank_settings_rejected Sample.show_float Sample.join
                  Sample.blank_settings Sample.unreachable
                  (Some "abc123") None "IMAGE_GENERATION" [])
               eq_refl).
Defined.


(** X4 on HTTP 503 with the body [[]]. *)
Lemma solve_non_object_body_witness :
  run (solve Sample.show_float Sample.join Sample.settings
         (Sample.respond 503 Sample.raw (inr (PList [])))
         (Some "abc123") None "IMAGE_GENERATION") []
  = (inl (AttributeError "'list' object has no attribute 'get'"), [Sample.request]).
Proof.
  rewrite <- sample_request.
  exact (solve_non_object_body Sample.show_float Sample.join Sample.settings
           (Sample.respond 503 Sample.raw (inr (PList [])))
           (Some "abc123") None "IMAGE_GENERATION" [] _ _
           sample_configured eq_refl eq_refl eq_refl).
Defined.

(** X6 on HTTP 200 with [{"token": "T1"}]. *)
Lemma solve_success_inversion_witness :
  configured Sample.settings
  /\ [Sample.request]
     = ([] ++ [sent_request Sample.join Sample.settings
                 (Some "abc123") None "IMAGE_GENERATION"])%list.
Proof.
  pose proof (solve_success_inversion Sample.show_float Sample.join Sample.settings
                (Sample.respond 200 Sample.raw (inr Sample.token_T1))
                (Some "abc123") None "IMAGE_GENERATION" []
                (solve_result "IMAGE_GENERATION" (PStr "T1") [("token", PStr "T1")])
                [Sample.request] eq_refl) as (Hcfg & Hlog & _).
  exact (conj Hcfg Hlog).
Defined.

(** X7 on HTTP 200 with [{"token": "T1"}]. *)
Lemma get_token_none_iff_witness :
  Py.truthy (PStr "T1") = true /\ PStr "T1" <> PNone.
Proof.
  pose proof (proj2 (get_token_none_iff Sample.show_float Sample.join Sample.settings
                       (Sample.respond 200 Sample.raw (inr Sample.token_T1))
                       (Some "abc123") "IMAGE_GENERATION" []
                       (PStr "T1") [Sample.request] eq_refl)
                    eq_refl) as (Ht & Hne & _).
  exact (conj Ht Hne).
Defined.


(** X10 on HTTP 200 with a short body that is no JSON. *)
Lemma solve_preview_bounds_witness :
  run (solve Sample.show_float Sample.join Sample.settings
         (Sample.respond 200 Sample.garbage Sample.not_json)
         (Some "abc123") None "IMAGE_GENERATION") []
  = (inl (RuntimeError
            "flow captcha service error: invalid json response (status=200): oops, not json"),
     [Sample.request]).
Proof.
  rewrite <- sample_request.
  exact (proj1 (solve_preview_bounds Sample.show_float Sample.join Sample.settings
                  (Sample.respond 200 Sample.garbage Sample.not_json)
                  (Some "abc123") None "IMAGE_GENERATION" [] _ _
                  sample_configured eq_refl eq_refl)
               ltac:(cbn; lia)).
Defined.

(** X11 on HTTP 429 with [{"error": "", "message": "slow down"}]. *)
Lemma solve_string_error_verbatim_witness :
  run (solve Sample.show_float Sample.join Sample.settings
         (Sample.respond 429 Sample.raw
            (inr (PDict [("error", PStr ""); ("message", PStr "slow down")])))
         (Some "abc123") None "IMAGE_GENERATION") []
  = (inl (RuntimeError "flow captcha service error: upstream status 429: "),
     [Sample.request]).
Proof.
  rewrite <- sample_request.
  exact (proj2 (solve_string_error_verbatim Sample.show_float Sample.join Sample.settings
                  (Sample.respond 429 Sample.raw
                     (inr (PDict [("error", PStr ""); ("message", PStr "slow down")])))
                  (Some "abc123") None "IMAGE_GENERATION" [] _ _ ""
                  sample_configured eq_refl eq_refl ltac:(discriminate) eq_refl)).
Defined.


